(** * Impersonation rules of the DSS general settings (dataikuapi/dss/admin.py)

    A shallow embedding of the impersonation-rule store of
    [DSSGeneralSettings], of the two rule builders
    [DSSUserImpersonationRule] and [DSSGroupImpersonationRule], and of
    [DSSCodeEnv.delete], followed by the properties the specification
    states about them.

    Python values are the values [json.loads] produces.  Dictionaries
    are finite maps with string keys, so that equality of two
    dictionaries is equality of their entries, whatever the insertion
    order, exactly as Python's [==].  Numbers are integers (floating
    point values are outside the model).  Python's [bool] is a subclass
    of [int] with [True == 1] and [False == 0]; a number is therefore
    represented by its numeric value, and the two booleans are the
    numbers 1 and 0.  With this representation Python's [==] on the
    values of a settings document is Leibniz equality. *)

From stdpp Require Import gmap strings list fin_maps.

Local Open Scope string_scope.
Local Open Scope list_scope.

(** ** Python values *)

#[warnings="-register-all"]
Inductive json : Type :=
  | JNone
  | JNum (n : Z)
  | JStr (s : string)
  | JList (l : list json)
  | JDict (d : gmap string json).

Definition JTrue : json := JNum 1.
Definition JFalse : json := JNum 0.

(** Python's [==] on these values. *)
Global Instance json_eq_dec : EqDecision json.
Proof.
  refine (fix go (x y : json) {struct x} : Decision (x = y) :=
    let _ : EqDecision json := @go in
    match x, y with
    | JNone, JNone => left _
    | JNum a, JNum b => cast_if (decide (a = b))
    | JStr a, JStr b => cast_if (decide (a = b))
    | JList a, JList b => cast_if (decide (a = b))
    | JDict a, JDict b => cast_if (decide (a = b))
    | _, _ => right _
    end); abstract congruence.
Defined.

(** A raw rule record, and any other JSON object. *)
Abbreviation dict := (gmap string json).

(** [m.get(k, d)] *)
Definition dict_get (m : dict) (k : string) (d : json) : json :=
  default d (m !! k).

(** The truth value of a Python value, as [if v:] tests it. *)
Definition truthy (v : json) : bool :=
  match v with
  | JNone => false
  | JNum n => negb (n =? 0)%Z
  | JStr s => negb (bool_decide (s = ""))
  | JList l => negb (bool_decide (l = []))
  | JDict d => negb (bool_decide (d = ∅))
  end.

(** ** Exceptions and results *)

(** [Exception fmt arg] stands for [Exception(fmt % json.dumps(arg))]
    when [arg] is given and for [Exception(fmt)] otherwise: the
    formatted argument is kept as the value that is serialised.
    [ValueError] is what [list.remove] raises.  [AttributeError attr]
    is what reading the attribute [attr] raises on a value that has
    none of that name; the name of the value's type, which the message
    also gives, is left out. *)
Inductive exn : Type :=
  | Exception (fmt : string) (arg : option json)
  | ValueError (msg : string)
  | AttributeError (attr : string).

Inductive result (A : Type) : Type :=
  | Ok (a : A)
  | Raise (e : exn).
Arguments Ok {A} a.
Arguments Raise {A} e.

(** Sequencing of code that may raise and touches no state. *)
Global Instance result_ret : MRet result := λ A a, Ok a.

Global Instance result_bind : MBind result := λ A B f r,
  match r with
  | Ok a => f a
  | Raise e => Raise e
  end.

(** ** The settings document

    [self.settings] of [DSSGeneralSettings]: the document fetched from
    the instance.  Its ['impersonation'] entry holds the two ordered
    lists of raw rule records; [settings_rest] is every other entry of
    the document. *)
Record settings : Type := mkSettings {
  userRules : list dict;
  groupRules : list dict;
  settings_rest : dict
}.

Definition set_userRules (l : list dict) (s : settings) : settings :=
  mkSettings l (groupRules s) (settings_rest s).

Definition set_groupRules (l : list dict) (s : settings) : settings :=
  mkSettings (userRules s) l (settings_rest s).

(** ** Methods of [DSSGeneralSettings] as computations on the document

    A method reads and mutates [self.settings] and may raise; what it
    has mutated before raising stays mutated. *)
Definition M (A : Type) : Type := settings → result A * settings.

Global Instance M_ret : MRet M := λ A a s, (Ok a, s).

Global Instance M_bind : MBind M := λ A B f c s,
  match c s with
  | (Ok a, s') => f a s'
  | (Raise e, s') => (Raise e, s')
  end.

Definition read_settings : M settings := λ s, (Ok s, s).

(** [for x in l: body(x)] *)
Fixpoint for_each {A : Type} (body : A → M unit) (l : list A) : M unit :=
  match l with
  | [] => mret tt
  | x :: l' => body x;; for_each body l'
  end.

(** ** Rule wrappers

    The two wrapper classes; each object holds a reference to its raw
    record in [raw]. *)
Inductive rule : Type :=
  | DSSUserImpersonationRule (raw : dict)
  | DSSGroupImpersonationRule (raw : dict).

Global Instance rule_eq_dec : EqDecision rule.
Proof. solve_decision. Defined.

(** The [rule] argument of [add_impersonation_rule]: one of the two
    wrappers, or a plain dict. *)
Inductive rule_or_dict : Type :=
  | Wrapper (r : rule)
  | PlainDict (d : dict).

(** [DSSUserImpersonationRule.__init__] and
    [DSSGroupImpersonationRule.__init__]: the raw record the new
    wrapper holds. *)
Definition user_rule_init (raw : option dict) : dict :=
  match raw with
  | Some raw => raw
  | None => <["scope" := JStr "GLOBAL"]> (<["type" := JStr "IDENTITY"]> ∅)
  end.

Definition group_rule_init (raw : option dict) : dict :=
  match raw with
  | Some raw => raw
  | None => <["type" := JStr "IDENTITY"]> ∅
  end.

(** *** Builder methods

    Each method assigns entries of [self.raw] and returns [self]; it is
    the function from the record before the call to the record after
    it.  An optional argument that is left out takes its default
    [None]. *)
Definition scope_global (raw : dict) : dict :=
  <["scope" := JStr "GLOBAL"]> raw.

Definition scope_project (project_key : json) (raw : dict) : dict :=
  let raw := <["scope" := JStr "PROJECT"]> raw in
  <["projectKey" := project_key]> raw.

Definition user_identity (raw : dict) : dict :=
  <["type" := JStr "IDENTITY"]> raw.

Definition user_single (dss_user unix_user : json) (hadoop_user : option json)
    (raw : dict) : dict :=
  let hadoop_user := default JNone hadoop_user in
  let raw := <["type" := JStr "SINGLE_MAPPING"]> raw in
  let raw := <["dssUser" := dss_user]> raw in
  let raw := <["targetUnix" := unix_user]> raw in
  <["targetHadoop" := hadoop_user]> raw.

Definition user_regexp (regexp unix_user : json) (hadoop_user : option json)
    (raw : dict) : dict :=
  let hadoop_user := default JNone hadoop_user in
  let raw := <["type" := JStr "REGEXP_RULE"]> raw in
  let raw := <["ruleFrom" := regexp]> raw in
  let raw := <["targetUnix" := unix_user]> raw in
  <["targetHadoop" := hadoop_user]> raw.

Definition group_identity (raw : dict) : dict :=
  <["type" := JStr "IDENTITY"]> raw.

Definition group_single (dss_group unix_user : json) (hadoop_user : option json)
    (raw : dict) : dict :=
  let hadoop_user := default JNone hadoop_user in
  let raw := <["type" := JStr "SINGLE_MAPPING"]> raw in
  let raw := <["dssGroup" := dss_group]> raw in
  let raw := <["targetUnix" := unix_user]> raw in
  <["targetHadoop" := hadoop_user]> raw.

Definition group_regexp (regexp unix_user : json) (hadoop_user : option json)
    (raw : dict) : dict :=
  let hadoop_user := default JNone hadoop_user in
  let raw := <["type" := JStr "REGEXP_RULE"]> raw in
  let raw := <["ruleFrom" := regexp]> raw in
  let raw := <["targetUnix" := unix_user]> raw in
  <["targetHadoop" := hadoop_user]> raw.

(** A call of a builder method, and a chain of calls on one builder. *)
Inductive user_call : Type :=
  | Scope_global
  | Scope_project (project_key : json)
  | User_identity
  | User_single (dss_user unix_user : json) (hadoop_user : option json)
  | User_regexp (regexp unix_user : json) (hadoop_user : option json).

Inductive group_call : Type :=
  | Group_identity
  | Group_single (dss_group unix_user : json) (hadoop_user : option json)
  | Group_regexp (regexp unix_user : json) (hadoop_user : option json).

Definition user_call_run (c : user_call) : dict → dict :=
  match c with
  | Scope_global => scope_global
  | Scope_project pk => scope_project pk
  | User_identity => user_identity
  | User_single u t h => user_single u t h
  | User_regexp r t h => user_regexp r t h
  end.

Definition group_call_run (c : group_call) : dict → dict :=
  match c with
  | Group_identity => group_identity
  | Group_single g t h => group_single g t h
  | Group_regexp r t h => group_regexp r t h
  end.

(** [b.c1().c2()...cn()]: the calls run from left to right. *)
Definition user_chain (cs : list user_call) (raw : dict) : dict :=
  foldl (λ raw c, user_call_run c raw) raw cs.

Definition group_chain (cs : list group_call) (raw : dict) : dict :=
  foldl (λ raw c, group_call_run c raw) raw cs.

(** ** [DSSGeneralSettings]: adding, querying and removing rules *)

(** [l.append(x)] *)
Definition list_append {A : Type} (x : A) (l : list A) : list A :=
  l ++ [x].

(** [l.remove(x)]: drops the first item equal to [x]; [None] when no
    item is equal to it, where Python raises [ValueError]. *)
Fixpoint list_remove (x : dict) (l : list dict) : option (list dict) :=
  match l with
  | [] => None
  | y :: l' =>
      if decide (y = x) then Some l'
      else match list_remove x l' with
           | Some k => Some (y :: k)
           | None => None
           end
  end.

Definition userRules_remove (x : dict) : M unit := λ s,
  match list_remove x (userRules s) with
  | Some l => (Ok tt, set_userRules l s)
  | None => (Raise (ValueError "list.remove(x): x not in list"), s)
  end.

Definition groupRules_remove (x : dict) : M unit := λ s,
  match list_remove x (groupRules s) with
  | Some l => (Ok tt, set_groupRules l s)
  | None => (Raise (ValueError "list.remove(x): x not in list"), s)
  end.

(** [is_user_rule] is [True] when the caller leaves it out. *)
Definition add_impersonation_rule (rule : rule_or_dict) (is_user_rule : json)
    : M unit := λ s,
  let '(rule_raw, is_user_rule) :=
    match rule with
    | Wrapper (DSSUserImpersonationRule raw) => (raw, JTrue)
    | Wrapper (DSSGroupImpersonationRule raw) => (raw, JFalse)
    | PlainDict d => (d, is_user_rule)
    end in
  if truthy is_user_rule
  then (Ok tt, set_userRules (list_append rule_raw (userRules s)) s)
  else (Ok tt, set_groupRules (list_append rule_raw (groupRules s)) s).

(** The keyword arguments of [get_impersonation_rules] and
    [remove_impersonation_rules]; each defaults to [None]. *)
Record filters : Type := mkFilters {
  dss_user : json;
  dss_group : json;
  unix_user : json;
  hadoop_user : json;
  project_key : json;
  scope : json;
  rule_type : json;
  is_user : json
}.

Definition no_filters : filters :=
  mkFilters JNone JNone JNone JNone JNone JNone JNone JNone.

Definition get_impersonation_rules (a : filters) : M (list rule) :=
  settings ← read_settings;
  let user_matches :=
    if decide (is_user a = JNone ∨ is_user a = JTrue)
    then userRules settings else [] in
  let user_matches :=
    if decide (dss_user a ≠ JNone)
    then filter (λ m, dss_user a = dict_get m "dssUser" JNone) user_matches
    else user_matches in
  let user_matches :=
    if decide (unix_user a ≠ JNone)
    then filter (λ m, unix_user a = dict_get m "targetUnix" JNone) user_matches
    else user_matches in
  let user_matches :=
    if decide (hadoop_user a ≠ JNone)
    then filter (λ m, hadoop_user a = dict_get m "targetHadoop" JNone) user_matches
    else user_matches in
  let user_matches :=
    if decide (project_key a ≠ JNone)
    then filter (λ m, project_key a = dict_get m "projectKey" JNone) user_matches
    else user_matches in
  let user_matches :=
    if decide (rule_type a ≠ JNone)
    then filter (λ m, rule_type a = dict_get m "type" JNone) user_matches
    else user_matches in
  let user_matches :=
    if decide (scope a ≠ JNone)
    then filter (λ m, scope a = dict_get m "scope" JNone) user_matches
    else user_matches in
  let group_matches :=
    if decide (is_user a = JNone ∨ is_user a = JFalse)
    then groupRules settings else [] in
  let group_matches :=
    if decide (dss_group a ≠ JNone)
    then filter (λ m, dss_group a = dict_get m "dssGroup" JNone) group_matches
    else group_matches in
  let group_matches :=
    if decide (unix_user a ≠ JNone)
    then filter (λ m, unix_user a = dict_get m "targetUnix" JNone) group_matches
    else group_matches in
  let group_matches :=
    if decide (hadoop_user a ≠ JNone)
    then filter (λ m, hadoop_user a = dict_get m "targetHadoop" JNone) group_matches
    else group_matches in
  let group_matches :=
    if decide (rule_type a ≠ JNone)
    then filter (λ m, rule_type a = dict_get m "type" JNone) group_matches
    else group_matches in
  let all_matches : list rule := [] in
  let all_matches :=
    foldl (λ all_matches m, list_append (DSSUserImpersonationRule m) all_matches)
      all_matches user_matches in
  let all_matches :=
    foldl (λ all_matches m, list_append (DSSGroupImpersonationRule m) all_matches)
      all_matches group_matches in
  mret all_matches.

Definition remove_impersonation_rules (a : filters) : M unit :=
  matches ← get_impersonation_rules a;
  for_each (λ m,
    match m with
    | DSSUserImpersonationRule raw => userRules_remove raw
    | DSSGroupImpersonationRule raw => groupRules_remove raw
    end) matches.

(** The group-rule views of a query result. *)
Definition is_group_rule (m : rule) : Prop :=
  match m with
  | DSSGroupImpersonationRule _ => True
  | DSSUserImpersonationRule _ => False
  end.

Global Instance is_group_rule_dec (m : rule) : Decision (is_group_rule m).
Proof. destruct m; simpl; apply _. Defined.

Definition group_views (l : list rule) : list rule := filter is_group_rule l.

Definition rule_raw (m : rule) : dict :=
  match m with
  | DSSUserImpersonationRule raw => raw
  | DSSGroupImpersonationRule raw => raw
  end.

(** [F2] supplies every filter that [F1] supplies, with the same
    value. *)
Definition supplies (x1 x2 : json) : Prop := x1 = JNone ∨ x1 = x2.

Definition filters_le (F1 F2 : filters) : Prop :=
  supplies (dss_user F1) (dss_user F2) ∧
  supplies (dss_group F1) (dss_group F2) ∧
  supplies (unix_user F1) (unix_user F2) ∧
  supplies (hadoop_user F1) (hadoop_user F2) ∧
  supplies (project_key F1) (project_key F2) ∧
  supplies (scope F1) (scope F2) ∧
  supplies (rule_type F1) (rule_type F2) ∧
  supplies (is_user F1) (is_user F2).

(** ** [DSSCodeEnv.delete]

    The method as the function from the body the transport returns for
    the DELETE request, any JSON value and [JNone] when there is none,
    to what the method returns or raises. *)

(** [v.get(key, d)]: a dict has the method, no other value has. *)
Definition py_get (v : json) (key : string) (d : json) : result json :=
  match v with
  | JDict m => Ok (dict_get m key d)
  | _ => Raise (AttributeError "get")
  end.

Definition delete (resp : json) : result json :=
  if decide (resp = JNone)
  then Raise (Exception "Env deletion returned no data" None)
  else
    messages ← py_get resp "messages" (JDict ∅);
    error ← py_get messages "error" JFalse;
    if truthy error
    then
      messages ← py_get resp "messages" (JDict ∅);
      messages ← py_get messages "messages" (JDict ∅);
      Raise (Exception "Env deletion failed : %s" (Some messages))
    else Ok resp.

(** ** Auxiliary definitions for the proofs

    The query, taken apart: one filtering step, the list a side of the
    query starts from, and the records each side ends with. *)

(** One [if arg is not None: matches = [m for m in matches if ...]]. *)
Definition narrow (arg : json) (key : string) (l : list dict) : list dict :=
  if decide (arg ≠ JNone)
  then filter (λ m, arg = dict_get m key JNone) l
  else l.

(** The condition one step imposes on a record. *)
Definition keeps (arg : json) (key : string) (m : dict) : Prop :=
  arg = JNone ∨ arg = dict_get m key JNone.

Definition user_base (a : filters) (s : settings) : list dict :=
  if decide (is_user a = JNone ∨ is_user a = JTrue) then userRules s else [].

Definition group_base (a : filters) (s : settings) : list dict :=
  if decide (is_user a = JNone ∨ is_user a = JFalse) then groupRules s else [].

Definition user_pred (a : filters) (m : dict) : Prop :=
  keeps (scope a) "scope" m ∧
  keeps (rule_type a) "type" m ∧
  keeps (project_key a) "projectKey" m ∧
  keeps (hadoop_user a) "targetHadoop" m ∧
  keeps (unix_user a) "targetUnix" m ∧
  keeps (dss_user a) "dssUser" m.

Definition group_pred (a : filters) (m : dict) : Prop :=
  keeps (rule_type a) "type" m ∧
  keeps (hadoop_user a) "targetHadoop" m ∧
  keeps (unix_user a) "targetUnix" m ∧
  keeps (dss_group a) "dssGroup" m.

Global Instance keeps_dec arg key m : Decision (keeps arg key m).
Proof. unfold keeps. apply _. Defined.

Global Instance user_pred_dec a m : Decision (user_pred a m).
Proof. unfold user_pred. apply _. Defined.

Global Instance group_pred_dec a m : Decision (group_pred a m).
Proof. unfold group_pred. apply _. Defined.

Definition user_matches (a : filters) (s : settings) : list dict :=
  filter (user_pred a) (user_base a s).

Definition group_matches (a : filters) (s : settings) : list dict :=
  filter (group_pred a) (group_base a s).

(** What a call returns, when it returns. *)
Definition returned {A : Type} (r : result (list A) * settings) : list A :=
  match r.1 with
  | Ok l => l
  | Raise _ => []
  end.

(** The same keyword arguments with [project_key], resp. [rule_type],
    replaced. *)
Definition with_project_key (v : json) (a : filters) : filters :=
  mkFilters (dss_user a) (dss_group a) (unix_user a) (hadoop_user a)
    v (scope a) (rule_type a) (is_user a).

Definition with_rule_type (v : json) (a : filters) : filters :=
  mkFilters (dss_user a) (dss_group a) (unix_user a) (hadoop_user a)
    (project_key a) (scope a) v (is_user a).

(** The records and the call of the specification's scenario. *)
Definition rule_global_identity : dict :=
  <["type" := JStr "IDENTITY"]> (<["scope" := JStr "GLOBAL"]> ∅).

Definition rule_alice_P1 : dict :=
  <["type" := JStr "SINGLE_MAPPING"]>
  (<["scope" := JStr "PROJECT"]>
  (<["projectKey" := JStr "P1"]>
  (<["dssUser" := JStr "alice"]>
  (<["targetUnix" := JStr "u_alice"]> ∅)))).

Definition scenario (rest : dict) : settings :=
  mkSettings [rule_global_identity; rule_alice_P1] [] rest.

Definition by_project_key (pk : string) : filters :=
  mkFilters JNone JNone JNone JNone (JStr pk) JNone JNone JNone.

Definition by_rule_type (ty : string) : filters :=
  mkFilters JNone JNone JNone JNone JNone JNone (JStr ty) JNone.

(** A document with one group rule, fresh from its builder. *)
Definition one_group_rule : settings :=
  mkSettings [] [group_rule_init None] ∅.

(** The response is an object whose ['messages'] entry is an object
    with a true ['error'] entry. *)
Definition error_flagged (resp : json) : Prop :=
  ∃ d msgs v,
    resp = JDict d ∧ d !! "messages" = Some (JDict msgs)
    ∧ msgs !! "error" = Some v ∧ truthy v = true.

(** The response is an object whose ['messages'] entry is absent or an
    object. *)
Definition messages_readable (resp : json) : Prop :=
  ∃ d, resp = JDict d
       ∧ (d !! "messages" = None ∨ ∃ msgs, d !! "messages" = Some (JDict msgs)).

(** The body of the loop of [remove_impersonation_rules]. *)
Definition remove_one (m : rule) : M unit :=
  match m with
  | DSSUserImpersonationRule raw => userRules_remove raw
  | DSSGroupImpersonationRule raw => groupRules_remove raw
  end.

(** ** The other operations that check the response

    [DSSCodeEnv.set_jupyter_support], [DSSCodeEnv.update_packages],
    [DSSCluster.start] and [DSSCluster.stop], each as the function from
    the body the transport returns for its request to what the method
    returns or raises.  The [active] argument of [set_jupyter_support]
    goes into the request only. *)
Definition set_jupyter_support (resp : json) : result json :=
  if decide (resp = JNone)
  then Raise (Exception "Env update returned no data" None)
  else
    messages ← py_get resp "messages" (JDict ∅);
    error ← py_get messages "error" JFalse;
    if truthy error
    then
      messages ← py_get resp "messages" (JDict ∅);
      messages ← py_get messages "messages" (JDict ∅);
      Raise (Exception "Env update failed : %s" (Some messages))
    else Ok resp.

Definition update_packages (resp : json) : result json :=
  if decide (resp = JNone)
  then Raise (Exception "Env update returned no data" None)
  else
    messages ← py_get resp "messages" (JDict ∅);
    error ← py_get messages "error" JFalse;
    if truthy error
    then
      messages ← py_get resp "messages" (JDict ∅);
      messages ← py_get messages "messages" (JDict ∅);
      Raise (Exception "Env update failed : %s" (Some messages))
    else Ok resp.

Definition start (resp : json) : result json :=
  if decide (resp = JNone)
  then Raise (Exception "Env update returned no data" None)
  else
    messages ← py_get resp "messages" (JDict ∅);
    error ← py_get messages "error" JFalse;
    if truthy error
    then
      messages ← py_get resp "messages" (JDict ∅);
      messages ← py_get messages "messages" (JDict ∅);
      Raise (Exception "Cluster operation failed : %s" (Some messages))
    else Ok resp.

Definition stop (resp : json) : result json :=
  if decide (resp = JNone)
  then Raise (Exception "Env update returned no data" None)
  else
    messages ← py_get resp "messages" (JDict ∅);
    error ← py_get messages "error" JFalse;
    if truthy error
    then
      messages ← py_get resp "messages" (JDict ∅);
      messages ← py_get messages "messages" (JDict ∅);
      Raise (Exception "Cluster operation failed : %s" (Some messages))
    else Ok resp.

(** The five operations are one check of the response, up to the two
    texts of their exceptions. *)
Definition check_response (no_data failed : string) (resp : json) : result json :=
  if decide (resp = JNone)
  then Raise (Exception no_data None)
  else
    messages ← py_get resp "messages" (JDict ∅);
    error ← py_get messages "error" JFalse;
    if truthy error
    then
      messages ← py_get resp "messages" (JDict ∅);
      messages ← py_get messages "messages" (JDict ∅);
      Raise (Exception failed (Some messages))
    else Ok resp.

(** Three responses: no ['messages'], a null ['messages'], and a true
    ['error'] among the messages. *)
Definition response_plain : json := JDict (<["ok" := JTrue]> ∅).

Definition response_null_messages : json := JDict (<["messages" := JNone]> ∅).

Definition response_failed : json :=
  JDict (<["messages" := JDict (<["error" := JTrue]> ∅)]> ∅).

(** ** Further auxiliary definitions *)

(** The user-rule views of a query result. *)
Definition is_user_view (m : rule) : Prop :=
  match m with
  | DSSUserImpersonationRule _ => True
  | DSSGroupImpersonationRule _ => False
  end.

Global Instance is_user_view_dec (m : rule) : Decision (is_user_view m).
Proof. destruct m; simpl; apply _. Defined.

Definition user_views (l : list rule) : list rule := filter is_user_view l.

(** The same keyword arguments with one of them replaced. *)
Definition with_dss_user (v : json) (a : filters) : filters :=
  mkFilters v (dss_group a) (unix_user a) (hadoop_user a)
    (project_key a) (scope a) (rule_type a) (is_user a).

Definition with_dss_group (v : json) (a : filters) : filters :=
  mkFilters (dss_user a) v (unix_user a) (hadoop_user a)
    (project_key a) (scope a) (rule_type a) (is_user a).

Definition with_scope (v : json) (a : filters) : filters :=
  mkFilters (dss_user a) (dss_group a) (unix_user a) (hadoop_user a)
    (project_key a) v (rule_type a) (is_user a).

Definition with_is_user (v : json) (a : filters) : filters :=
  mkFilters (dss_user a) (dss_group a) (unix_user a) (hadoop_user a)
    (project_key a) (scope a) (rule_type a) v.

(** [l.remove(x)] for each [x] of [ms] in turn, as long as none
    raises. *)
Fixpoint remove_all (ms : list dict) (l : list dict) : option (list dict) :=
  match ms with
  | [] => Some l
  | x :: ms' =>
      match list_remove x l with
      | Some k => remove_all ms' k
      | None => None
      end
  end.

(** The document a computation ends with. *)
Definition final {A : Type} (r : result A * settings) : settings := r.2.

(** The two kinds of calls of a user-rule builder. *)
Definition is_scope_call (c : user_call) : bool :=
  match c with
  | Scope_global | Scope_project _ => true
  | _ => false
  end.

Definition is_type_call (c : user_call) : bool :=
  match c with
  | User_identity | User_single _ _ _ | User_regexp _ _ _ => true
  | _ => false
  end.

(** The keys and the values the builders write. *)
Definition user_rule_keys : gset string :=
  {[ "type"; "scope"; "projectKey"; "dssUser"; "ruleFrom";
     "targetUnix"; "targetHadoop" ]}.

Definition group_rule_keys : gset string :=
  {[ "type"; "dssGroup"; "ruleFrom"; "targetUnix"; "targetHadoop" ]}.

Definition rule_type_value (v : json) : Prop :=
  v = JStr "IDENTITY" ∨ v = JStr "SINGLE_MAPPING" ∨ v = JStr "REGEXP_RULE".

Definition scope_value (v : json) : Prop :=
  v = JStr "GLOBAL" ∨ v = JStr "PROJECT".

Definition user_record_ok (raw : dict) : Prop :=
  dom raw ⊆ user_rule_keys
  ∧ (∃ v, raw !! "type" = Some v ∧ rule_type_value v)
  ∧ (∃ v, raw !! "scope" = Some v ∧ scope_value v).

Definition group_record_ok (raw : dict) : Prop :=
  dom raw ⊆ group_rule_keys
  ∧ (∃ v, raw !! "type" = Some v ∧ rule_type_value v).

(** Membership of a given key in a given set of keys, by evaluation. *)
Ltac key_in_set := apply (bool_decide_unpack _); vm_compute; exact I.

(** * Properties *)

(** ** Lists *)

Lemma foldl_list_append {A B : Type} (f : A → B) (l : list A) (acc : list B) :
  foldl (λ acc m, list_append (f m) acc) acc l = acc ++ map f l.
Proof.
  revert acc. induction l as [|x l IH]; intros acc; simpl.
  - by rewrite app_nil_r.
  - rewrite IH. unfold list_append. by rewrite <- app_assoc.
Qed.

Lemma narrow_filter arg key l : narrow arg key l = filter (keeps arg key) l.
Proof.
  unfold narrow, keeps. destruct (decide (arg ≠ JNone)) as [Harg|Harg].
  - apply list_filter_iff. intros m. split; [by right|].
    by intros [?|?].
  - apply dec_stable in Harg.
    induction l as [|m l IH]; [done|].
    rewrite filter_cons_True by (by left). by rewrite <- IH.
Qed.

Lemma filter_sublist_mono (P Q : dict → Prop)
    `{!∀ m, Decision (P m)} `{!∀ m, Decision (Q m)} (l k : list dict) :
  (∀ m, P m → Q m) → l `sublist_of` k → filter P l `sublist_of` filter Q k.
Proof.
  intros HPQ Hlk. induction Hlk as [|x l k _ IH|x l k _ IH].
  - constructor.
  - destruct (decide (P x)) as [HP|HP].
    + rewrite (filter_cons_True P) by done.
      rewrite (filter_cons_True Q) by auto. by constructor.
    + rewrite (filter_cons_False P) by done.
      destruct (decide (Q x)).
      * rewrite (filter_cons_True Q) by done. by constructor.
      * by rewrite (filter_cons_False Q).
  - destruct (decide (Q x)).
    + rewrite (filter_cons_True Q) by done. by constructor.
    + by rewrite (filter_cons_False Q).
Qed.

Lemma list_remove_elem_of (x : dict) (l : list dict) :
  x ∈ l → ∃ k, list_remove x l = Some k ∧ l ≡ₚ x :: k.
Proof.
  induction l as [|y l IH]; intros Hx.
  - by apply elem_of_nil in Hx.
  - simpl. destruct (decide (y = x)) as [->|Hne].
    + by exists l.
    + apply elem_of_cons in Hx as [->|Hx]; [done|].
      destruct (IH Hx) as (k & -> & Hk). exists (y :: k). split; [done|].
      rewrite Hk. apply Permutation_swap.
Qed.

Lemma list_remove_None (x : dict) (l : list dict) :
  list_remove x l = None ↔ x ∉ l.
Proof.
  split.
  - intros Hnone Hx. destruct (list_remove_elem_of x l Hx) as (k & Hk & _).
    congruence.
  - induction l as [|y l IH]; intros Hx; [done|].
    simpl. apply not_elem_of_cons in Hx as [Hne Hx].
    rewrite decide_False by done. by rewrite IH.
Qed.

(** [list_remove] takes out the first occurrence, and no other. *)
Lemma list_remove_first (x : dict) (l k : list dict) :
  list_remove x l = Some k ↔
  ∃ l1 l2, l = l1 ++ x :: l2 ∧ (x ∉ l1) ∧ k = l1 ++ l2.
Proof.
  revert k. induction l as [|y l IH]; intros k; simpl.
  - split; [done|]. intros (l1 & l2 & Hl & _). by destruct l1.
  - destruct (decide (y = x)) as [->|Hne].
    + split.
      * intros [= <-]. exists [], l. repeat split. apply not_elem_of_nil.
      * intros (l1 & l2 & Hl & Hx & ->). destruct l1 as [|z l1]; simplify_eq/=.
        -- done.
        -- exfalso. apply Hx. by left.
    + split.
      * destruct (list_remove x l) as [k'|]; [|done].
        intros [= <-]. destruct (proj1 (IH k') eq_refl) as (l1 & l2 & -> & Hx & ->).
        exists (y :: l1), l2. repeat split. by apply not_elem_of_cons.
      * intros (l1 & l2 & Hl & Hx & ->). destruct l1 as [|z l1]; simplify_eq/=.
        apply not_elem_of_cons in Hx as [_ Hx].
        assert (list_remove x (l1 ++ x :: l2) = Some (l1 ++ l2)) as ->; [|done].
        apply IH. by exists l1, l2.
Qed.

(** After the matches of a filter have been taken out of a list, in
    any order and whichever equal copies went, none is left. *)
Lemma filter_rest_nil (P : dict → Prop) `{!∀ m, Decision (P m)}
    (l k : list dict) :
  l ≡ₚ filter P l ++ k → filter P k = [].
Proof.
  intros Hl. apply nil_length_inv.
  assert (length (filter P l) = length (filter P (filter P l ++ k))) as Hlen.
  { apply Permutation_length.
    apply (filter_Permutation P). exact Hl. }
  rewrite filter_app, length_app in Hlen.
  rewrite list_filter_filter in Hlen.
  rewrite (list_filter_iff (λ x, P x ∧ P x) P) in Hlen by (intros x; tauto).
  lia.
Qed.

(** ** The query *)

Lemma user_matches_narrow a s :
  user_matches a s =
  narrow (scope a) "scope"
    (narrow (rule_type a) "type"
      (narrow (project_key a) "projectKey"
        (narrow (hadoop_user a) "targetHadoop"
          (narrow (unix_user a) "targetUnix"
            (narrow (dss_user a) "dssUser" (user_base a s)))))).
Proof.
  rewrite !narrow_filter, !list_filter_filter.
  apply list_filter_iff. intros m. unfold user_pred. tauto.
Qed.

Lemma group_matches_narrow a s :
  group_matches a s =
  narrow (rule_type a) "type"
    (narrow (hadoop_user a) "targetHadoop"
      (narrow (unix_user a) "targetUnix"
        (narrow (dss_group a) "dssGroup" (group_base a s)))).
Proof.
  rewrite !narrow_filter, !list_filter_filter.
  apply list_filter_iff. intros m. unfold group_pred. tauto.
Qed.

(** The query returns the matching user records, wrapped, then the
    matching group records, wrapped, and leaves the document as it
    is. *)
Lemma get_impersonation_rules_eq a s :
  get_impersonation_rules a s =
  (Ok (map DSSUserImpersonationRule (user_matches a s) ++
       map DSSGroupImpersonationRule (group_matches a s)), s).
Proof.
  rewrite user_matches_narrow, group_matches_narrow.
  unfold get_impersonation_rules, mbind, M_bind, read_settings, mret, M_ret.
  cbv zeta. rewrite !foldl_list_append. reflexivity.
Qed.

Lemma returned_get a s :
  returned (get_impersonation_rules a s) =
  map DSSUserImpersonationRule (user_matches a s) ++
  map DSSGroupImpersonationRule (group_matches a s).
Proof. by rewrite get_impersonation_rules_eq. Qed.

Lemma group_views_app (us gs : list dict) :
  group_views (map DSSUserImpersonationRule us ++
               map DSSGroupImpersonationRule gs) =
  map DSSGroupImpersonationRule gs.
Proof.
  unfold group_views. rewrite filter_app.
  assert (filter is_group_rule (map DSSUserImpersonationRule us) = []) as ->.
  { induction us as [|u us IH]; [done|]. simpl.
    by rewrite filter_cons_False by (by intros []). }
  simpl. induction gs as [|g gs IH]; [done|]. simpl.
  rewrite filter_cons_True by done. by rewrite IH.
Qed.

Lemma filter_map_group (P : dict → Prop) `{!∀ m, Decision (P m)}
    (gs : list dict) :
  filter (λ m, P (rule_raw m)) (map DSSGroupImpersonationRule gs) =
  map DSSGroupImpersonationRule (filter P gs).
Proof.
  induction gs as [|g gs IH]; [done|]. simpl.
  destruct (decide (P g)) as [HP|HP].
  - rewrite filter_cons_True by done.
    rewrite (filter_cons_True P) by done. simpl. by rewrite IH.
  - rewrite filter_cons_False by done.
    by rewrite (filter_cons_False P) by done.
Qed.

(** ** Removal *)

Lemma for_each_app {A : Type} (body : A → M unit) (l1 l2 : list A) s :
  for_each body (l1 ++ l2) s =
  match for_each body l1 s with
  | (Ok _, s') => for_each body l2 s'
  | (Raise e, s') => (Raise e, s')
  end.
Proof.
  revert s. induction l1 as [|x l1 IH]; intros s; [done|].
  simpl. unfold mbind, M_bind.
  destruct (body x s) as [[[]|e] s1]; [apply IH|done].
Qed.

Lemma remove_impersonation_rules_eq a s :
  remove_impersonation_rules a s =
  for_each remove_one
    (map DSSUserImpersonationRule (user_matches a s) ++
     map DSSGroupImpersonationRule (group_matches a s)) s.
Proof.
  unfold remove_impersonation_rules, mbind, M_bind.
  by rewrite get_impersonation_rules_eq.
Qed.

Lemma set_userRules_id s : set_userRules (userRules s) s = s.
Proof. by destruct s. Qed.

Lemma set_groupRules_id s : set_groupRules (groupRules s) s = s.
Proof. by destruct s. Qed.

(** Removing, one after the other, records that all occur in the
    list, with their multiplicities, always finds its record. *)
Lemma remove_user_records (us : list dict) s :
  us ⊆+ userRules s →
  ∃ k, for_each remove_one (map DSSUserImpersonationRule us) s
         = (Ok tt, set_userRules k s)
       ∧ userRules s ≡ₚ us ++ k.
Proof.
  revert s. induction us as [|u us IH]; intros s Hsub.
  - exists (userRules s). by rewrite set_userRules_id.
  - assert (u ∈ userRules s) as Hu.
    { eapply elem_of_submseteq; [|exact Hsub]. by left. }
    destruct (list_remove_elem_of u _ Hu) as (k1 & Hrem & Hperm).
    rewrite Hperm in Hsub.
    apply (submseteq_app_inv_l us k1 [u]) in Hsub.
    destruct (IH (set_userRules k1 s) Hsub) as (k & Hk & Hkperm).
    exists k. split.
    + simpl. unfold mbind, M_bind, userRules_remove. by rewrite Hrem, Hk.
    + rewrite Hperm. simpl. f_equiv. exact Hkperm.
Qed.

Lemma remove_group_records (gs : list dict) s :
  gs ⊆+ groupRules s →
  ∃ k, for_each remove_one (map DSSGroupImpersonationRule gs) s
         = (Ok tt, set_groupRules k s)
       ∧ groupRules s ≡ₚ gs ++ k.
Proof.
  revert s. induction gs as [|g gs IH]; intros s Hsub.
  - exists (groupRules s). by rewrite set_groupRules_id.
  - assert (g ∈ groupRules s) as Hg.
    { eapply elem_of_submseteq; [|exact Hsub]. by left. }
    destruct (list_remove_elem_of g _ Hg) as (k1 & Hrem & Hperm).
    rewrite Hperm in Hsub.
    apply (submseteq_app_inv_l gs k1 [g]) in Hsub.
    destruct (IH (set_groupRules k1 s) Hsub) as (k & Hk & Hkperm).
    exists k. split.
    + simpl. unfold mbind, M_bind, groupRules_remove. by rewrite Hrem, Hk.
    + rewrite Hperm. simpl. f_equiv. exact Hkperm.
Qed.

Lemma user_base_sublist a s : user_base a s `sublist_of` userRules s.
Proof. unfold user_base. case_decide; [done|apply sublist_nil_l]. Qed.

Lemma group_base_sublist a s : group_base a s `sublist_of` groupRules s.
Proof. unfold group_base. case_decide; [done|apply sublist_nil_l]. Qed.

Lemma user_matches_submseteq a s : user_matches a s ⊆+ userRules s.
Proof.
  apply sublist_submseteq. unfold user_matches.
  etrans; [apply sublist_filter|apply user_base_sublist].
Qed.

Lemma group_matches_submseteq a s : group_matches a s ⊆+ groupRules s.
Proof.
  apply sublist_submseteq. unfold group_matches.
  etrans; [apply sublist_filter|apply group_base_sublist].
Qed.

(** What a removal does: it never raises, and each list is, up to the
    order, the matches of the query followed by what is left of it. *)
Lemma remove_impersonation_rules_spec a s :
  ∃ ku kg,
    remove_impersonation_rules a s
      = (Ok tt, mkSettings ku kg (settings_rest s))
    ∧ userRules s ≡ₚ user_matches a s ++ ku
    ∧ groupRules s ≡ₚ group_matches a s ++ kg.
Proof.
  rewrite remove_impersonation_rules_eq, for_each_app.
  destruct (remove_user_records _ s (user_matches_submseteq a s))
    as (ku & -> & Hku).
  destruct (remove_group_records (group_matches a s) (set_userRules ku s))
    as (kg & -> & Hkg); [exact (group_matches_submseteq a s)|].
  exists ku, kg. by repeat split.
Qed.

(** ** The claims about the query *)

(** C1, as the code has it: [project_key] narrows the user rules only,
    the group-rule views returned are the same whatever [project_key]
    is; [rule_type] narrows the group rules too: the group-rule views
    returned are those returned without [rule_type] whose ['type']
    equals it. *)
Theorem C1_group_rules_project_key_and_rule_type s a pk :
  group_views (returned (get_impersonation_rules (with_project_key pk a) s))
    = group_views (returned (get_impersonation_rules a s))
  ∧ group_views (returned (get_impersonation_rules a s))
    = filter (λ m, keeps (rule_type a) "type" (rule_raw m))
        (group_views
           (returned (get_impersonation_rules (with_rule_type JNone a) s))).
Proof.
  rewrite !returned_get, !group_views_app. split; [done|].
  rewrite filter_map_group. f_equal.
  rewrite !group_matches_narrow. simpl.
  by rewrite (narrow_filter (rule_type a)).
Qed.

(** C1, as the specification states it, fails: with
    [rule_type='SINGLE_MAPPING'] the identity group rule is not
    returned, although it is returned once [project_key] and
    [rule_type] are taken away. *)
Lemma C1_rule_type_filters_group_rules :
  group_views
    (returned (get_impersonation_rules (by_rule_type "SINGLE_MAPPING")
                 one_group_rule)) = []
  ∧ group_views
      (returned
         (get_impersonation_rules
            (with_rule_type JNone
               (with_project_key JNone (by_rule_type "SINGLE_MAPPING")))
            one_group_rule))
    = [DSSGroupImpersonationRule (<["type" := JStr "IDENTITY"]> ∅)]
  ∧ group_views
      (returned (get_impersonation_rules (by_rule_type "SINGLE_MAPPING")
                   one_group_rule))
    ≠ group_views
        (returned
           (get_impersonation_rules
              (with_rule_type JNone
                 (with_project_key JNone (by_rule_type "SINGLE_MAPPING")))
              one_group_rule)).
Proof.
  vm_compute. split; [reflexivity|]. split; [reflexivity|discriminate].
Qed.

(** C2: the scenario of the specification.  The query by
    [project_key='P1'] returns the second record alone, as a user-rule
    view; after the removal by [project_key='P1'] the same query
    returns nothing and [userRules] holds the first record alone. *)
Theorem C2_scenario (rest : dict) :
  get_impersonation_rules (by_project_key "P1") (scenario rest)
    = (Ok [DSSUserImpersonationRule rule_alice_P1], scenario rest)
  ∧ ∃ s',
      remove_impersonation_rules (by_project_key "P1") (scenario rest)
        = (Ok tt, s')
      ∧ get_impersonation_rules (by_project_key "P1") s' = (Ok [], s')
      ∧ userRules s' = [rule_global_identity]
      ∧ length (userRules s') = 1.
Proof.
  split; [reflexivity|].
  exists (mkSettings [rule_global_identity] [] rest).
  repeat split; reflexivity.
Qed.

(** C4: without any filter the query returns every user rule, in the
    order of [userRules], as user-rule views, then every group rule,
    in the order of [groupRules], as group-rule views, and the document
    is as it was. *)
Theorem C4_get_without_filters s :
  get_impersonation_rules no_filters s
    = (Ok (map DSSUserImpersonationRule (userRules s) ++
           map DSSGroupImpersonationRule (groupRules s)), s).
Proof.
  rewrite get_impersonation_rules_eq, user_matches_narrow, group_matches_narrow.
  reflexivity.
Qed.

(** ** The claims about removal *)

(** Removal leaves no match of its own filters, whether or not the
    lists held equal records. *)
Lemma remove_then_get a s :
  ∃ s', remove_impersonation_rules a s = (Ok tt, s')
        ∧ get_impersonation_rules a s' = (Ok [], s').
Proof.
  destruct (remove_impersonation_rules_spec a s) as (ku & kg & -> & Hku & Hkg).
  eexists. split; [done|].
  rewrite get_impersonation_rules_eq. f_equal. f_equal.
  assert (user_matches a (mkSettings ku kg (settings_rest s)) = []) as ->.
  { revert Hku. unfold user_matches, user_base. simpl.
    case_decide; [apply filter_rest_nil|done]. }
  assert (group_matches a (mkSettings ku kg (settings_rest s)) = []) as ->.
  { revert Hkg. unfold group_matches, group_base. simpl.
    case_decide; [apply filter_rest_nil|done]. }
  done.
Qed.

(** C3: when neither list holds two equal records, removing with some
    filters and then querying with the same filters returns the empty
    sequence. *)
Theorem C3_remove_then_get_is_empty a s :
  NoDup (userRules s) → NoDup (groupRules s) →
  ∃ s', remove_impersonation_rules a s = (Ok tt, s')
        ∧ get_impersonation_rules a s' = (Ok [], s').
Proof. intros _ _. apply remove_then_get. Qed.

Lemma C3_witness :
  NoDup (userRules (scenario ∅)) ∧ NoDup (groupRules (scenario ∅))
  ∧ ∃ s', remove_impersonation_rules (by_project_key "P1") (scenario ∅)
            = (Ok tt, s')
          ∧ get_impersonation_rules (by_project_key "P1") s' = (Ok [], s').
Proof.
  assert (NoDup (userRules (scenario ∅))) as Hu.
  { apply (bool_decide_unpack _). vm_compute. exact I. }
  assert (NoDup (groupRules (scenario ∅))) as Hg.
  { apply (bool_decide_unpack _). vm_compute. exact I. }
  split; [exact Hu|]. split; [exact Hg|].
  exact (C3_remove_then_get_is_empty (by_project_key "P1") (scenario ∅) Hu Hg).
Defined.

(** With two equal records both match, and both are removed. *)
Example remove_equal_records :
  remove_impersonation_rules (by_rule_type "IDENTITY")
    (mkSettings [rule_global_identity; rule_alice_P1; rule_global_identity] [] ∅)
  = (Ok tt, mkSettings [rule_alice_P1] [] ∅).
Proof. by vm_compute. Qed.

(** C7: a removal is one [list.remove] per view the query returns, on
    the list of the view's kind; none of them raises, and the two lists
    together lose as many records as the query returned, each list
    being, up to the order, the records matched in it followed by the
    records left in it. *)
Theorem C7_one_removal_per_match a s :
  remove_impersonation_rules a s
    = for_each remove_one (returned (get_impersonation_rules a s)) s
  ∧ ∃ s',
      remove_impersonation_rules a s = (Ok tt, s')
      ∧ length (userRules s') + length (groupRules s')
          + length (returned (get_impersonation_rules a s))
        = length (userRules s) + length (groupRules s)
      ∧ userRules s ≡ₚ user_matches a s ++ userRules s'
      ∧ groupRules s ≡ₚ group_matches a s ++ groupRules s'
      ∧ settings_rest s' = settings_rest s.
Proof.
  split.
  { by rewrite remove_impersonation_rules_eq, returned_get. }
  destruct (remove_impersonation_rules_spec a s) as (ku & kg & -> & Hku & Hkg).
  eexists. split; [done|]. simpl. repeat split; [|done..].
  rewrite returned_get, length_app, !length_map.
  rewrite Hku, Hkg, !length_app. lia.
Qed.

(** ** Narrowing *)

Lemma keeps_supplies x1 x2 key m :
  supplies x1 x2 → keeps x2 key m → keeps x1 key m.
Proof. intros [->| ->]; [by left|done]. Qed.

Lemma user_pred_mono F1 F2 m :
  filters_le F1 F2 → user_pred F2 m → user_pred F1 m.
Proof.
  intros (Hu & _ & Hx & Hh & Hp & Hs & Ht & _) (Ks & Kt & Kp & Kh & Kx & Ku).
  repeat split; eapply keeps_supplies; eassumption.
Qed.

Lemma group_pred_mono F1 F2 m :
  filters_le F1 F2 → group_pred F2 m → group_pred F1 m.
Proof.
  intros (_ & Hg & Hx & Hh & _ & _ & Ht & _) (Kt & Kh & Kx & Kg).
  repeat split; eapply keeps_supplies; eassumption.
Qed.

Lemma user_base_mono F1 F2 s :
  filters_le F1 F2 → user_base F2 s `sublist_of` user_base F1 s.
Proof.
  intros (_ & _ & _ & _ & _ & _ & _ & [Hi|Hi]).
  - unfold user_base at 2. rewrite Hi.
    rewrite decide_True by (by left). apply user_base_sublist.
  - unfold user_base. by rewrite Hi.
Qed.

Lemma group_base_mono F1 F2 s :
  filters_le F1 F2 → group_base F2 s `sublist_of` group_base F1 s.
Proof.
  intros (_ & _ & _ & _ & _ & _ & _ & [Hi|Hi]).
  - unfold group_base at 2. rewrite Hi.
    rewrite decide_True by (by left). apply group_base_sublist.
  - unfold group_base. by rewrite Hi.
Qed.

Lemma sublist_map {A B : Type} (f : A → B) (l k : list A) :
  l `sublist_of` k → map f l `sublist_of` map f k.
Proof. induction 1; simpl; by constructor. Qed.

(** C5: when [F2] supplies every filter of [F1], and possibly more,
    what the query returns under [F2] is a subsequence of what it
    returns under [F1]. *)
Theorem C5_query_narrows s F1 F2 :
  filters_le F1 F2 →
  returned (get_impersonation_rules F2 s)
    `sublist_of` returned (get_impersonation_rules F1 s).
Proof.
  intros Hle. rewrite !returned_get. apply sublist_app; apply sublist_map.
  - apply filter_sublist_mono; [|by apply user_base_mono].
    intros m. by apply user_pred_mono.
  - apply filter_sublist_mono; [|by apply group_base_mono].
    intros m. by apply group_pred_mono.
Qed.

Lemma C5_witness :
  filters_le no_filters (by_project_key "P1")
  ∧ returned (get_impersonation_rules (by_project_key "P1") (scenario ∅))
      `sublist_of` returned (get_impersonation_rules no_filters (scenario ∅)).
Proof.
  assert (filters_le no_filters (by_project_key "P1")) as Hle.
  { repeat split; by left. }
  split; [exact Hle|].
  exact (C5_query_narrows (scenario ∅) no_filters (by_project_key "P1") Hle).
Defined.

(** ** The builders *)

Lemma user_chain_snoc cs c raw :
  user_chain (cs ++ [c]) raw = user_call_run c (user_chain cs raw).
Proof. unfold user_chain. by rewrite foldl_app. Qed.

Lemma group_chain_snoc cs c raw :
  group_chain (cs ++ [c]) raw = group_call_run c (group_chain cs raw).
Proof. unfold group_chain. by rewrite foldl_app. Qed.

(** C6: whatever record a builder starts from and whatever calls were
    chained before, after a last [user_single(u, t, h)], resp.
    [group_single(u, t, h)], the record has [type = 'SINGLE_MAPPING'],
    [dssUser = u], resp. [dssGroup = u], [targetUnix = t] and
    [targetHadoop = h]; when [h] is left out [targetHadoop] is there
    and holds [None]. *)
Theorem C6_single_is_terminal (init : option dict) (u t : json)
    (h : option json) (ucs : list user_call) (gcs : list group_call) :
  let ur := user_chain (ucs ++ [User_single u t h]) (user_rule_init init) in
  let gr := group_chain (gcs ++ [Group_single u t h]) (group_rule_init init) in
  (ur !! "type" = Some (JStr "SINGLE_MAPPING")
   ∧ ur !! "dssUser" = Some u
   ∧ ur !! "targetUnix" = Some t
   ∧ ur !! "targetHadoop" = Some (match h with Some h => h | None => JNone end))
  ∧ (gr !! "type" = Some (JStr "SINGLE_MAPPING")
     ∧ gr !! "dssGroup" = Some u
     ∧ gr !! "targetUnix" = Some t
     ∧ gr !! "targetHadoop" = Some (match h with Some h => h | None => JNone end)).
Proof.
  intros ur gr. subst ur gr.
  rewrite user_chain_snoc, group_chain_snoc. simpl.
  unfold user_single, group_single.
  destruct h; simpl; repeat split; by simplify_map_eq.
Qed.

(** C8: [user_identity()], resp. [group_identity()], sets [type] to
    ['IDENTITY'] and leaves every other entry of the record as it was,
    present with its value or absent. *)
Theorem C8_identity_frame (raw : dict) :
  (user_identity raw !! "type" = Some (JStr "IDENTITY")
   ∧ ∀ k, k ≠ "type" → user_identity raw !! k = raw !! k)
  ∧ (group_identity raw !! "type" = Some (JStr "IDENTITY")
     ∧ ∀ k, k ≠ "type" → group_identity raw !! k = raw !! k).
Proof.
  unfold user_identity, group_identity.
  repeat split; intros; by simplify_map_eq.
Qed.

Lemma C8_witness :
  "dssUser" ≠ "type"
  ∧ user_identity
      (user_single (JStr "alice") (JStr "u_alice") None (user_rule_init None))
      !! "dssUser"
    = user_single (JStr "alice") (JStr "u_alice") None (user_rule_init None)
      !! "dssUser".
Proof.
  assert ("dssUser" ≠ "type") as Hne by discriminate.
  split; [exact Hne|].
  exact (proj2 (proj1 (C8_identity_frame
    (user_single (JStr "alice") (JStr "u_alice") None (user_rule_init None))))
    "dssUser" Hne).
Defined.

(** Stale entries of an earlier [user_single] stay after
    [user_identity]. *)
Example user_identity_keeps_stale_entries :
  user_chain [User_single (JStr "alice") (JStr "u_alice") None; User_identity]
    (user_rule_init None)
  = <["type" := JStr "IDENTITY"]>
    (<["scope" := JStr "GLOBAL"]>
    (<["dssUser" := JStr "alice"]>
    (<["targetUnix" := JStr "u_alice"]>
    (<["targetHadoop" := JNone]> ∅)))).
Proof. by vm_compute. Qed.

(** ** Adding a rule *)

(** C10: a user-rule wrapper goes to the end of [userRules] and a
    group-rule wrapper to the end of [groupRules], whatever
    [is_user_rule] is; [is_user_rule] decides for a plain dict only. *)
Theorem C10_wrapper_overrides_is_user_rule s (raw : dict) (is_user_rule : json) :
  add_impersonation_rule (Wrapper (DSSUserImpersonationRule raw)) is_user_rule s
    = (Ok tt, mkSettings (userRules s ++ [raw]) (groupRules s) (settings_rest s))
  ∧ add_impersonation_rule (Wrapper (DSSGroupImpersonationRule raw)) is_user_rule s
    = (Ok tt, mkSettings (userRules s) (groupRules s ++ [raw]) (settings_rest s))
  ∧ add_impersonation_rule (PlainDict raw) is_user_rule s
    = if truthy is_user_rule
      then (Ok tt, mkSettings (userRules s ++ [raw]) (groupRules s) (settings_rest s))
      else (Ok tt, mkSettings (userRules s) (groupRules s ++ [raw]) (settings_rest s)).
Proof. repeat split. Qed.

Example add_user_wrapper_as_group_rule :
  add_impersonation_rule (Wrapper (DSSUserImpersonationRule (user_rule_init None)))
    JFalse (mkSettings [] [] ∅)
  = (Ok tt, mkSettings [user_rule_init None] [] ∅).
Proof. reflexivity. Qed.

Example add_plain_dict_as_group_rule :
  add_impersonation_rule (PlainDict (group_rule_init None))
    JFalse (mkSettings [] [] ∅)
  = (Ok tt, mkSettings [] [group_rule_init None] ∅).
Proof. reflexivity. Qed.

(** ** Deleting a code env *)

Lemma check_response_None no_data failed :
  check_response no_data failed JNone = Raise (Exception no_data None).
Proof. reflexivity. Qed.

Lemma check_response_flagged no_data failed (d msgs : dict) (v : json) :
  d !! "messages" = Some (JDict msgs) → msgs !! "error" = Some v →
  truthy v = true →
  check_response no_data failed (JDict d)
  = Raise (Exception failed (Some (default (JDict ∅) (msgs !! "messages")))).
Proof.
  intros Hm Hv Ht. unfold check_response. rewrite decide_False by done.
  simpl. unfold dict_get. rewrite Hm. simpl. unfold dict_get.
  rewrite Hv. simpl. by rewrite Ht.
Qed.

Lemma check_response_Ok no_data failed (resp : json) :
  messages_readable resp → ¬ error_flagged resp →
  check_response no_data failed resp = Ok resp.
Proof.
  intros (d & -> & Hm) Hf. unfold check_response.
  rewrite decide_False by done. simpl. unfold dict_get.
  destruct Hm as [Hm|(msgs & Hm)]; rewrite Hm; simpl; [done|].
  unfold dict_get.
  destruct (msgs !! "error") as [v|] eqn:Hv; simpl; [|done].
  destruct (truthy v) eqn:Ht; [|done].
  exfalso. apply Hf. by exists d, msgs, v.
Qed.

Lemma check_response_AttributeError no_data failed (resp : json) :
  resp ≠ JNone → ¬ messages_readable resp →
  check_response no_data failed resp = Raise (AttributeError "get").
Proof.
  intros Hn Hr. unfold check_response. rewrite decide_False by done.
  destruct resp as [|n|t|l|d]; try done. simpl. unfold dict_get.
  destruct (d !! "messages") as [m|] eqn:Hm.
  - destruct m as [|n|t|l|msgs]; try done.
    exfalso. apply Hr. exists d. split; [done|]. right. by exists msgs.
  - exfalso. apply Hr. exists d. split; [done|]. by left.
Qed.

Lemma error_flagged_readable (resp : json) :
  error_flagged resp → messages_readable resp.
Proof.
  intros (d & msgs & v & -> & Hm & _). exists d. split; [done|].
  right. by exists msgs.
Qed.

(** Every response falls in one of the four cases. *)
Lemma response_cases (resp : json) :
  resp = JNone
  ∨ error_flagged resp
  ∨ (messages_readable resp ∧ ¬ error_flagged resp)
  ∨ (resp ≠ JNone ∧ ¬ messages_readable resp).
Proof.
  destruct resp as [|n|t|l|d].
  - by left.
  - do 3 right. split; [done|]. by intros (d & [=] & _).
  - do 3 right. split; [done|]. by intros (d & [=] & _).
  - do 3 right. split; [done|]. by intros (d & [=] & _).
  - destruct (d !! "messages") as [m|] eqn:Hm.
    + destruct m as [|n|t|l|msgs].
      1-4: do 3 right; split; [done|];
        intros (d' & [= <-] & [Hd|(msgs & Hd)]); congruence.
      assert (messages_readable (JDict d)) as Hr.
      { exists d. split; [done|]. right. by exists msgs. }
      destruct (msgs !! "error") as [v|] eqn:Hv.
      * destruct (truthy v) eqn:Ht.
        -- right. left. by exists d, msgs, v.
        -- right. right. left. split; [done|].
           intros (d' & msgs' & v' & [= <-] & Hm' & Hv' & Ht'). congruence.
      * right. right. left. split; [done|].
        intros (d' & msgs' & v' & [= <-] & Hm' & Hv' & Ht'). congruence.
    + right. right. left. split.
      * exists d. split; [done|]. by left.
      * intros (d' & msgs' & v' & [= <-] & Hm' & _). congruence.
Qed.

Lemma check_response_Raise no_data failed (resp : json) (e : exn) :
  check_response no_data failed resp = Raise e →
  resp = JNone ∨ error_flagged resp ∨ (resp ≠ JNone ∧ ¬ messages_readable resp).
Proof.
  intros He. destruct (response_cases resp) as [H|[H|[[Hr Hf]|H]]]; auto.
  by rewrite check_response_Ok in He.
Qed.

Lemma check_response_Ok_iff no_data failed (resp r : json) :
  check_response no_data failed resp = Ok r
  ↔ r = resp ∧ messages_readable resp ∧ ¬ error_flagged resp.
Proof.
  split.
  - intros Hok. destruct (response_cases resp) as [->|[Hf|[[Hr Hf]|[Hn Hr]]]].
    + by rewrite check_response_None in Hok.
    + destruct Hf as (d & msgs & v & -> & Hm & Hv & Ht).
      by rewrite (check_response_flagged _ _ d msgs v) in Hok.
    + rewrite check_response_Ok in Hok by done. by injection Hok as <-.
    + by rewrite check_response_AttributeError in Hok.
  - intros (-> & Hr & Hf). by apply check_response_Ok.
Qed.

(** C9, as the code has it: [delete] raises when the response is
    absent, raises with the messages of the response when their
    ['error'] entry is true, and returns the response as it is when
    the response is an object whose ['messages'] entry is absent or an
    object without a true ['error'] entry.  It raises in a third case
    and in no other: an [AttributeError], when the response is not an
    object, or when its ['messages'] entry is there and is not an
    object. *)
Theorem C9_delete_outcomes :
  delete JNone = Raise (Exception "Env deletion returned no data" None)
  ∧ (∀ (d msgs : dict) (v : json),
       d !! "messages" = Some (JDict msgs) → msgs !! "error" = Some v →
       truthy v = true →
       delete (JDict d)
       = Raise (Exception "Env deletion failed : %s"
                  (Some (default (JDict ∅) (msgs !! "messages")))))
  ∧ (∀ resp, messages_readable resp → ¬ error_flagged resp →
       delete resp = Ok resp)
  ∧ (∀ resp, resp ≠ JNone → ¬ messages_readable resp →
       delete resp = Raise (AttributeError "get"))
  ∧ (∀ resp e,
       delete resp = Raise e →
       resp = JNone ∨ error_flagged resp
       ∨ (resp ≠ JNone ∧ ¬ messages_readable resp)).
Proof.
  change delete
    with (check_response "Env deletion returned no data"
            "Env deletion failed : %s").
  split; [apply check_response_None|].
  split; [apply check_response_flagged|].
  split; [apply check_response_Ok|].
  split; [apply check_response_AttributeError|apply check_response_Raise].
Qed.

Lemma C9_witness :
  response_null_messages ≠ JNone
  ∧ ¬ messages_readable response_null_messages
  ∧ delete response_null_messages = Raise (AttributeError "get").
Proof.
  assert (response_null_messages ≠ JNone) as Hn by discriminate.
  assert (¬ messages_readable response_null_messages) as Hr.
  { intros (d & [= <-] & [Hd|(msgs & Hd)]); vm_compute in Hd; discriminate Hd. }
  split; [exact Hn|]. split; [exact Hr|].
  exact (proj1 (proj2 (proj2 (proj2 C9_delete_outcomes)))
           response_null_messages Hn Hr).
Defined.

(** C9, as the specification states it, fails: on a response whose
    ['messages'] entry is null, [delete] raises although the response
    is there and its messages hold no true ['error'] entry. *)
Lemma C9_delete_raises_on_null_messages :
  delete response_null_messages = Raise (AttributeError "get")
  ∧ response_null_messages ≠ JNone
  ∧ ¬ error_flagged response_null_messages.
Proof.
  split; [reflexivity|]. split; [discriminate|].
  intros (d & msgs & v & [= <-] & Hm & _). vm_compute in Hm. discriminate Hm.
Qed.

Example delete_without_messages :
  delete response_plain = Ok response_plain.
Proof. reflexivity. Qed.

Example delete_with_false_error :
  delete (JDict (<["messages" := JDict (<["error" := JFalse]> ∅)]> ∅))
  = Ok (JDict (<["messages" := JDict (<["error" := JFalse]> ∅)]> ∅)).
Proof. reflexivity. Qed.

Example delete_with_true_error :
  delete response_failed
  = Raise (Exception "Env deletion failed : %s" (Some (JDict ∅))).
Proof. reflexivity. Qed.

Example delete_of_a_list :
  delete (JList []) = Raise (AttributeError "get").
Proof. reflexivity. Qed.

(** * Further properties *)

(** ** What a removal leaves *)

Lemma for_each_remove_users (ms : list dict) s k :
  remove_all ms (userRules s) = Some k →
  for_each remove_one (map DSSUserImpersonationRule ms) s
    = (Ok tt, set_userRules k s).
Proof.
  revert s. induction ms as [|x ms IH]; intros s; simpl.
  - intros [= <-]. by rewrite set_userRules_id.
  - destruct (list_remove x (userRules s)) as [k1|] eqn:Hrem; [|done].
    intros Hk. unfold mbind, M_bind, userRules_remove. rewrite Hrem.
    by rewrite (IH (set_userRules k1 s)).
Qed.

Lemma for_each_remove_groups (ms : list dict) s k :
  remove_all ms (groupRules s) = Some k →
  for_each remove_one (map DSSGroupImpersonationRule ms) s
    = (Ok tt, set_groupRules k s).
Proof.
  revert s. induction ms as [|x ms IH]; intros s; simpl.
  - intros [= <-]. by rewrite set_groupRules_id.
  - destruct (list_remove x (groupRules s)) as [k1|] eqn:Hrem; [|done].
    intros Hk. unfold mbind, M_bind, groupRules_remove. rewrite Hrem.
    by rewrite (IH (set_groupRules k1 s)).
Qed.

(** Taking the matches of [P] out of a list, first match first, takes
    out each match itself: what stays is the records that do not match,
    in their order. *)
Lemma remove_all_filter (P : dict → Prop) `{!∀ m, Decision (P m)}
    (pre l : list dict) :
  Forall (λ m, ¬ P m) pre →
  remove_all (filter P l) (pre ++ l) = Some (pre ++ filter (λ m, ¬ P m) l).
Proof.
  revert pre. induction l as [|x l IH]; intros pre Hpre.
  - done.
  - destruct (decide (P x)) as [HP|HP].
    + rewrite (filter_cons_True P) by done.
      rewrite (filter_cons_False (λ m, ¬ P m)) by auto.
      simpl.
      assert (list_remove x (pre ++ x :: l) = Some (pre ++ l)) as ->.
      { apply list_remove_first. exists pre, l. repeat split.
        intros Hx. rewrite Forall_forall in Hpre. by apply (Hpre x). }
      by apply IH.
    + rewrite (filter_cons_False P) by done.
      rewrite (filter_cons_True (λ m, ¬ P m)) by done.
      rewrite (cons_middle x pre l), app_assoc.
      rewrite IH; [by rewrite <- app_assoc|].
      apply Forall_app. split; [done|]. by constructor.
Qed.

Lemma remove_all_nil_l (P : dict → Prop) `{!∀ m, Decision (P m)}
    (l : list dict) :
  remove_all (filter P l) l = Some (filter (λ m, ¬ P m) l).
Proof. by apply (remove_all_filter P [] l). Qed.

Lemma user_matches_remove_all a s :
  remove_all (user_matches a s) (userRules s)
  = Some (if decide (is_user a = JNone ∨ is_user a = JTrue)
          then filter (λ m, ¬ user_pred a m) (userRules s)
          else userRules s).
Proof.
  unfold user_matches, user_base. case_decide; [|done].
  apply remove_all_nil_l.
Qed.

Lemma group_matches_remove_all a s :
  remove_all (group_matches a s) (groupRules s)
  = Some (if decide (is_user a = JNone ∨ is_user a = JFalse)
          then filter (λ m, ¬ group_pred a m) (groupRules s)
          else groupRules s).
Proof.
  unfold group_matches, group_base. case_decide; [|done].
  apply remove_all_nil_l.
Qed.

(** A removal never raises; it leaves in [userRules] the records that
    do not match the user-side filters, in their order (all of them
    when [is_user] excludes user rules), likewise in [groupRules]. *)
Lemma remove_impersonation_rules_filter a s :
  remove_impersonation_rules a s
  = (Ok tt,
     mkSettings
       (if decide (is_user a = JNone ∨ is_user a = JTrue)
        then filter (λ m, ¬ user_pred a m) (userRules s)
        else userRules s)
       (if decide (is_user a = JNone ∨ is_user a = JFalse)
        then filter (λ m, ¬ group_pred a m) (groupRules s)
        else groupRules s)
       (settings_rest s)).
Proof.
  rewrite remove_impersonation_rules_eq, for_each_app.
  rewrite (for_each_remove_users _ _ _ (user_matches_remove_all a s)).
  by rewrite (for_each_remove_groups _ (set_userRules _ s) _
                (group_matches_remove_all a s)).
Qed.

(** ** Which views a query returns *)

Lemma elem_of_map_user (m : dict) (l : list dict) :
  DSSUserImpersonationRule m ∈ map DSSUserImpersonationRule l ↔ m ∈ l.
Proof.
  rewrite !list_elem_of_In, in_map_iff. split.
  - by intros (m' & [= ->] & Hm).
  - intros Hm. by exists m.
Qed.

Lemma elem_of_map_group (m : dict) (l : list dict) :
  DSSGroupImpersonationRule m ∈ map DSSGroupImpersonationRule l ↔ m ∈ l.
Proof.
  rewrite !list_elem_of_In, in_map_iff. split.
  - by intros (m' & [= ->] & Hm).
  - intros Hm. by exists m.
Qed.

Lemma not_elem_of_map_cross (m : dict) (l : list dict) :
  (DSSUserImpersonationRule m ∉ map DSSGroupImpersonationRule l)
  ∧ (DSSGroupImpersonationRule m ∉ map DSSUserImpersonationRule l).
Proof.
  rewrite !list_elem_of_In, !in_map_iff. split; by intros (m' & [=] & _).
Qed.

Lemma elem_of_user_base a s m :
  m ∈ user_base a s ↔ (is_user a = JNone ∨ is_user a = JTrue) ∧ m ∈ userRules s.
Proof.
  unfold user_base. case_decide; [tauto|].
  split; [by intros ?%elem_of_nil|tauto].
Qed.

Lemma elem_of_group_base a s m :
  m ∈ group_base a s ↔ (is_user a = JNone ∨ is_user a = JFalse) ∧ m ∈ groupRules s.
Proof.
  unfold group_base. case_decide; [tauto|].
  split; [by intros ?%elem_of_nil|tauto].
Qed.

Lemma elem_of_returned_user a s m :
  DSSUserImpersonationRule m ∈ returned (get_impersonation_rules a s) ↔
  (is_user a = JNone ∨ is_user a = JTrue) ∧ m ∈ userRules s ∧ user_pred a m.
Proof.
  rewrite returned_get, elem_of_app, elem_of_map_user.
  destruct (not_elem_of_map_cross m (group_matches a s)) as [Hug _].
  unfold user_matches. rewrite list_elem_of_filter, elem_of_user_base. tauto.
Qed.

Lemma elem_of_returned_group a s m :
  DSSGroupImpersonationRule m ∈ returned (get_impersonation_rules a s) ↔
  (is_user a = JNone ∨ is_user a = JFalse) ∧ m ∈ groupRules s ∧ group_pred a m.
Proof.
  rewrite returned_get, elem_of_app, elem_of_map_group.
  destruct (not_elem_of_map_cross m (user_matches a s)) as [_ Hgu].
  unfold group_matches. rewrite list_elem_of_filter, elem_of_group_base. tauto.
Qed.

(** X1: a user rule is returned exactly when [is_user] is [None] or
    [True], the record is in [userRules], and each of [scope],
    [rule_type], [project_key], [hadoop_user], [unix_user] and
    [dss_user] is [None] or equal to what [get] finds in the record
    under its key; a group rule exactly when [is_user] is [None] or
    [False], the record is in [groupRules], and the same holds of
    [rule_type], [hadoop_user], [unix_user] and [dss_group]. *)
Theorem get_impersonation_rules_elem_of a s m :
  (DSSUserImpersonationRule m ∈ returned (get_impersonation_rules a s) ↔
     (is_user a = JNone ∨ is_user a = JTrue) ∧ m ∈ userRules s
     ∧ (scope a = JNone ∨ scope a = dict_get m "scope" JNone)
     ∧ (rule_type a = JNone ∨ rule_type a = dict_get m "type" JNone)
     ∧ (project_key a = JNone ∨ project_key a = dict_get m "projectKey" JNone)
     ∧ (hadoop_user a = JNone ∨ hadoop_user a = dict_get m "targetHadoop" JNone)
     ∧ (unix_user a = JNone ∨ unix_user a = dict_get m "targetUnix" JNone)
     ∧ (dss_user a = JNone ∨ dss_user a = dict_get m "dssUser" JNone))
  ∧ (DSSGroupImpersonationRule m ∈ returned (get_impersonation_rules a s) ↔
       (is_user a = JNone ∨ is_user a = JFalse) ∧ m ∈ groupRules s
       ∧ (rule_type a = JNone ∨ rule_type a = dict_get m "type" JNone)
       ∧ (hadoop_user a = JNone ∨ hadoop_user a = dict_get m "targetHadoop" JNone)
       ∧ (unix_user a = JNone ∨ unix_user a = dict_get m "targetUnix" JNone)
       ∧ (dss_group a = JNone ∨ dss_group a = dict_get m "dssGroup" JNone)).
Proof.
  rewrite elem_of_returned_user, elem_of_returned_group.
  unfold user_pred, group_pred, keeps. tauto.
Qed.

Lemma filter_ext_elem (P Q : dict → Prop)
    `{!∀ m, Decision (P m)} `{!∀ m, Decision (Q m)} (l : list dict) :
  (∀ m, m ∈ l → (P m ↔ Q m)) → filter P l = filter Q l.
Proof.
  induction l as [|x l IH]; intros HPQ; [done|].
  assert (filter P l = filter Q l) as Hl.
  { apply IH. intros m Hm. apply HPQ. by right. }
  destruct (decide (P x)) as [HP|HP].
  - rewrite (filter_cons_True P) by done.
    rewrite (filter_cons_True Q) by (apply HPQ; [by left|done]).
    by rewrite Hl.
  - rewrite (filter_cons_False P) by done.
    rewrite (filter_cons_False Q); [done|].
    intros HQ. apply HP, HPQ; [by left|done].
Qed.

Lemma filter_all (P : dict → Prop) `{!∀ m, Decision (P m)} (l : list dict) :
  (∀ m, m ∈ l → P m) → filter P l = l.
Proof.
  induction l as [|x l IH]; intros HP; [done|].
  rewrite filter_cons_True by (apply HP; by left).
  rewrite IH; [done|]. intros m Hm. apply HP. by right.
Qed.

(** X2: a removal never raises.  It leaves in [userRules] exactly the
    records the query with the same arguments does not return as a
    user rule, and in [groupRules] exactly those it does not return as
    a group rule, each in the order they had; the rest of the document
    is as it was. *)
Theorem remove_impersonation_rules_keeps_the_rest a s :
  ∃ s',
    remove_impersonation_rules a s = (Ok tt, s')
    ∧ userRules s'
      = filter (λ m, DSSUserImpersonationRule m
                       ∉ returned (get_impersonation_rules a s))
          (userRules s)
    ∧ groupRules s'
      = filter (λ m, DSSGroupImpersonationRule m
                       ∉ returned (get_impersonation_rules a s))
          (groupRules s)
    ∧ settings_rest s' = settings_rest s.
Proof.
  rewrite remove_impersonation_rules_filter. eexists. split; [done|].
  simpl. repeat split.
  - case_decide as Hi.
    + apply filter_ext_elem. intros m Hm.
      rewrite elem_of_returned_user. tauto.
    + symmetry. apply filter_all. intros m Hm.
      rewrite elem_of_returned_user. tauto.
  - case_decide as Hi.
    + apply filter_ext_elem. intros m Hm.
      rewrite elem_of_returned_group. tauto.
    + symmetry. apply filter_all. intros m Hm.
      rewrite elem_of_returned_group. tauto.
Qed.

(** ** The [is_user] argument and the filters of one side *)

Lemma user_views_app (us gs : list dict) :
  user_views (map DSSUserImpersonationRule us ++
              map DSSGroupImpersonationRule gs) =
  map DSSUserImpersonationRule us.
Proof.
  unfold user_views. rewrite filter_app.
  assert (filter is_user_view (map DSSGroupImpersonationRule gs) = []) as ->.
  { induction gs as [|g gs IH]; [done|]. simpl.
    by rewrite filter_cons_False by (by intros []). }
  rewrite app_nil_r. induction us as [|u us IH]; [done|]. simpl.
  rewrite filter_cons_True by done. by rewrite IH.
Qed.

(** X3: the query for both kinds ([is_user=None]) returns what the
    query for user rules ([is_user=True]) returns, followed by what the
    query for group rules ([is_user=False]) returns, the other
    arguments being the same; the first part is its user-rule views and
    the second its group-rule views. *)
Theorem get_impersonation_rules_by_kind a s :
  returned (get_impersonation_rules (with_is_user JNone a) s)
    = returned (get_impersonation_rules (with_is_user JTrue a) s)
      ++ returned (get_impersonation_rules (with_is_user JFalse a) s)
  ∧ returned (get_impersonation_rules (with_is_user JTrue a) s)
    = user_views (returned (get_impersonation_rules (with_is_user JNone a) s))
  ∧ returned (get_impersonation_rules (with_is_user JFalse a) s)
    = group_views (returned (get_impersonation_rules (with_is_user JNone a) s)).
Proof.
  rewrite !returned_get, user_views_app, group_views_app.
  assert (group_matches (with_is_user JTrue a) s = []) as -> by reflexivity.
  assert (user_matches (with_is_user JFalse a) s = []) as -> by reflexivity.
  assert (user_matches (with_is_user JTrue a) s
          = user_matches (with_is_user JNone a) s) as -> by reflexivity.
  assert (group_matches (with_is_user JFalse a) s
          = group_matches (with_is_user JNone a) s) as -> by reflexivity.
  simpl. by rewrite app_nil_r.
Qed.

(** X4: when [is_user] is given and is neither [True] nor [False]
    (nor a number equal to one of them), the query returns nothing and
    the removal removes nothing, whatever the document holds. *)
Theorem is_user_of_another_value a s :
  is_user a ≠ JNone → is_user a ≠ JTrue → is_user a ≠ JFalse →
  get_impersonation_rules a s = (Ok [], s)
  ∧ remove_impersonation_rules a s = (Ok tt, s).
Proof.
  intros Hn Ht Hf.
  assert (user_matches a s = []) as Hu.
  { unfold user_matches, user_base. rewrite decide_False by tauto. done. }
  assert (group_matches a s = []) as Hg.
  { unfold group_matches, group_base. rewrite decide_False by tauto. done. }
  rewrite remove_impersonation_rules_eq, get_impersonation_rules_eq, Hu, Hg.
  done.
Qed.

Lemma is_user_of_another_value_witness :
  is_user (with_is_user (JStr "True") no_filters) ≠ JNone
  ∧ is_user (with_is_user (JStr "True") no_filters) ≠ JTrue
  ∧ is_user (with_is_user (JStr "True") no_filters) ≠ JFalse
  ∧ get_impersonation_rules (with_is_user (JStr "True") no_filters) (scenario ∅)
    = (Ok [], scenario ∅)
  ∧ remove_impersonation_rules (with_is_user (JStr "True") no_filters) (scenario ∅)
    = (Ok tt, scenario ∅).
Proof.
  assert (is_user (with_is_user (JStr "True") no_filters) ≠ JNone) as Hn
    by discriminate.
  assert (is_user (with_is_user (JStr "True") no_filters) ≠ JTrue) as Ht
    by discriminate.
  assert (is_user (with_is_user (JStr "True") no_filters) ≠ JFalse) as Hf
    by discriminate.
  split; [exact Hn|]. split; [exact Ht|]. split; [exact Hf|].
  exact (is_user_of_another_value
           (with_is_user (JStr "True") no_filters) (scenario ∅) Hn Ht Hf).
Defined.

(** X5: [dss_user], [project_key] and [scope] are tried on user rules
    only, and [dss_group] on group rules only: the group-rule views
    returned do not depend on the first three, nor the user-rule views
    on the last. *)
Theorem filters_of_the_other_kind a s (u pk sc g : json) :
  group_views
    (returned (get_impersonation_rules
                 (with_dss_user u (with_project_key pk (with_scope sc a))) s))
    = group_views (returned (get_impersonation_rules a s))
  ∧ user_views (returned (get_impersonation_rules (with_dss_group g a) s))
    = user_views (returned (get_impersonation_rules a s)).
Proof. by rewrite !returned_get, !group_views_app, !user_views_app. Qed.

Lemma keeps_lookup arg key (m : dict) :
  arg ≠ JNone → keeps arg key m → m !! key = Some arg.
Proof.
  intros Hn [?|Hk]; [done|]. unfold dict_get in Hk.
  destruct (m !! key) as [v|]; simpl in Hk; by subst.
Qed.

(** X6: every view returned holds, under its key, the value of each
    filter that was given and is tried on its kind; a record without
    the key, or with [None] under it, is therefore never returned when
    the filter is given. *)
Theorem returned_views_hold_the_filters a s v :
  v ∈ returned (get_impersonation_rules a s) →
  (unix_user a ≠ JNone → rule_raw v !! "targetUnix" = Some (unix_user a))
  ∧ (hadoop_user a ≠ JNone → rule_raw v !! "targetHadoop" = Some (hadoop_user a))
  ∧ (rule_type a ≠ JNone → rule_raw v !! "type" = Some (rule_type a))
  ∧ (is_user_view v → dss_user a ≠ JNone →
       rule_raw v !! "dssUser" = Some (dss_user a))
  ∧ (is_user_view v → project_key a ≠ JNone →
       rule_raw v !! "projectKey" = Some (project_key a))
  ∧ (is_user_view v → scope a ≠ JNone →
       rule_raw v !! "scope" = Some (scope a))
  ∧ (is_group_rule v → dss_group a ≠ JNone →
       rule_raw v !! "dssGroup" = Some (dss_group a)).
Proof.
  destruct v as [m|m]; simpl.
  - intros (_ & _ & Ks & Kt & Kp & Kh & Kx & Ku)%elem_of_returned_user.
    repeat split; try done; intros; by apply keeps_lookup.
  - intros (_ & _ & Kt & Kh & Kx & Kg)%elem_of_returned_group.
    repeat split; try done; intros; by apply keeps_lookup.
Qed.

Lemma returned_views_hold_the_filters_witness :
  DSSUserImpersonationRule rule_alice_P1
    ∈ returned (get_impersonation_rules (by_project_key "P1") (scenario ∅))
  ∧ rule_raw (DSSUserImpersonationRule rule_alice_P1) !! "projectKey"
    = Some (project_key (by_project_key "P1")).
Proof.
  assert (DSSUserImpersonationRule rule_alice_P1
            ∈ returned (get_impersonation_rules (by_project_key "P1")
                          (scenario ∅))) as Hin.
  { apply (bool_decide_unpack _). vm_compute. exact I. }
  split; [exact Hin|].
  apply (returned_views_hold_the_filters _ _ _ Hin); [exact I|discriminate].
Defined.

(** ** How removals compose *)

Lemma filter_not_idemp (P : dict → Prop) `{!∀ m, Decision (P m)} (l : list dict) :
  filter (λ m, ¬ P m) (filter (λ m, ¬ P m) l) = filter (λ m, ¬ P m) l.
Proof. apply filter_all. by intros m [HP _]%list_elem_of_filter. Qed.

Lemma filter_not_comm (P Q : dict → Prop)
    `{!∀ m, Decision (P m)} `{!∀ m, Decision (Q m)} (l : list dict) :
  filter (λ m, ¬ P m) (filter (λ m, ¬ Q m) l)
  = filter (λ m, ¬ Q m) (filter (λ m, ¬ P m) l).
Proof.
  rewrite !list_filter_filter. apply list_filter_iff. intros m. tauto.
Qed.

Lemma remove_twice a b s :
  (remove_impersonation_rules a;; remove_impersonation_rules b) s
  = remove_impersonation_rules b (final (remove_impersonation_rules a s)).
Proof.
  unfold mbind, M_bind, final. by rewrite remove_impersonation_rules_filter.
Qed.

(** X7: removing twice with the same arguments is removing once. *)
Theorem remove_impersonation_rules_idempotent a s :
  (remove_impersonation_rules a;; remove_impersonation_rules a) s
  = remove_impersonation_rules a s.
Proof.
  rewrite remove_twice. unfold final.
  rewrite !remove_impersonation_rules_filter. simpl.
  do 2 f_equal; case_decide; by rewrite ?filter_not_idemp.
Qed.

(** X8: two removals give the same document in either order. *)
Theorem remove_impersonation_rules_commute a b s :
  (remove_impersonation_rules a;; remove_impersonation_rules b) s
  = (remove_impersonation_rules b;; remove_impersonation_rules a) s.
Proof.
  rewrite !remove_twice. unfold final.
  rewrite !remove_impersonation_rules_filter. simpl.
  do 2 f_equal; repeat case_decide; try done; apply filter_not_comm.
Qed.

(** X9: a removal leaves the document as it is exactly when the query
    with the same arguments returns nothing. *)
Theorem remove_impersonation_rules_unchanged_iff a s :
  remove_impersonation_rules a s = (Ok tt, s)
  ↔ returned (get_impersonation_rules a s) = [].
Proof.
  split.
  - intros Hs.
    destruct (remove_impersonation_rules_spec a s) as (ku & kg & Hr & Hku & Hkg).
    apply Permutation_length in Hku, Hkg. rewrite length_app in Hku, Hkg.
    rewrite Hs in Hr.
    assert (userRules s = ku) as Eu by (by injection Hr as ->).
    assert (groupRules s = kg) as Eg by (by injection Hr as ->).
    rewrite Eu in Hku. rewrite Eg in Hkg.
    rewrite returned_get. apply nil_length_inv.
    rewrite length_app, !length_map. lia.
  - intros Hnil. by rewrite remove_impersonation_rules_eq, <- returned_get, Hnil.
Qed.

(** X10: called without any argument, the removal empties both
    lists. *)
Theorem remove_impersonation_rules_without_filters s :
  remove_impersonation_rules no_filters s
  = (Ok tt, mkSettings [] [] (settings_rest s)).
Proof.
  rewrite remove_impersonation_rules_filter. simpl. do 2 f_equal.
  - induction (userRules s) as [|m l IH]; [done|].
    rewrite filter_cons_False; [done|].
    intros HP. apply HP. repeat split; by left.
  - induction (groupRules s) as [|m l IH]; [done|].
    rewrite filter_cons_False; [done|].
    intros HP. apply HP. repeat split; by left.
Qed.

Lemma filter_not_sublist_mono (P Q : dict → Prop)
    `{!∀ m, Decision (P m)} `{!∀ m, Decision (Q m)} (l : list dict) :
  (∀ m, Q m → P m) →
  filter (λ m, ¬ P m) l `sublist_of` filter (λ m, ¬ Q m) l.
Proof. intros HQP. apply filter_sublist_mono; [|done]. intros m. auto. Qed.

(** X11: with more filters a removal removes less: when [F2] supplies
    every filter of [F1], each list left by the removal under [F1] is
    a subsequence of the list left by the removal under [F2]. *)
Theorem remove_impersonation_rules_narrows s F1 F2 :
  filters_le F1 F2 →
  userRules (final (remove_impersonation_rules F1 s))
    `sublist_of` userRules (final (remove_impersonation_rules F2 s))
  ∧ groupRules (final (remove_impersonation_rules F1 s))
      `sublist_of` groupRules (final (remove_impersonation_rules F2 s)).
Proof.
  intros Hle. unfold final. rewrite !remove_impersonation_rules_filter. simpl.
  pose proof Hle as (_ & _ & _ & _ & _ & _ & _ & Hi).
  split.
  - destruct (decide (is_user F2 = JNone ∨ is_user F2 = JTrue)) as [H2|H2].
    + rewrite decide_True by (destruct Hi as [->| ->]; tauto).
      apply filter_not_sublist_mono. intros m. by apply user_pred_mono.
    + case_decide; [apply sublist_filter|done].
  - destruct (decide (is_user F2 = JNone ∨ is_user F2 = JFalse)) as [H2|H2].
    + rewrite decide_True by (destruct Hi as [->| ->]; tauto).
      apply filter_not_sublist_mono. intros m. by apply group_pred_mono.
    + case_decide; [apply sublist_filter|done].
Qed.

Lemma remove_impersonation_rules_narrows_witness :
  filters_le no_filters (by_project_key "P1")
  ∧ userRules (final (remove_impersonation_rules no_filters (scenario ∅)))
      `sublist_of`
    userRules (final (remove_impersonation_rules (by_project_key "P1")
                        (scenario ∅))).
Proof.
  assert (filters_le no_filters (by_project_key "P1")) as Hle.
  { repeat split; by left. }
  split; [exact Hle|].
  exact (proj1 (remove_impersonation_rules_narrows
                  (scenario ∅) no_filters (by_project_key "P1") Hle)).
Defined.

(** ** Adding, then querying or removing *)

Lemma user_matches_append a s (raw : dict) :
  user_matches a (set_userRules (userRules s ++ [raw]) s)
  = user_matches a s ++ user_matches a (mkSettings [raw] [] ∅).
Proof.
  unfold user_matches, user_base. simpl.
  case_decide; [apply filter_app|done].
Qed.

Lemma group_matches_append a s (raw : dict) :
  group_matches a (set_groupRules (groupRules s ++ [raw]) s)
  = group_matches a s ++ group_matches a (mkSettings [] [raw] ∅).
Proof.
  unfold group_matches, group_base. simpl.
  case_decide; [apply filter_app|done].
Qed.

Lemma user_matches_set_groupRules a s l :
  user_matches a (set_groupRules l s) = user_matches a s.
Proof. reflexivity. Qed.

Lemma group_matches_set_userRules a s l :
  group_matches a (set_userRules l s) = group_matches a s.
Proof. reflexivity. Qed.

(** X12: after a rule has been added, a query returns what it returned
    before, with what it returns on the new rule alone put behind the
    user rules, for a user-rule wrapper, or at the end, for a
    group-rule wrapper. *)
Theorem add_impersonation_rule_then_get a s (raw : dict) (is_user_rule : json) :
  returned (get_impersonation_rules a
              (final (add_impersonation_rule
                        (Wrapper (DSSUserImpersonationRule raw)) is_user_rule s)))
    = user_views (returned (get_impersonation_rules a s))
      ++ returned (get_impersonation_rules a (mkSettings [raw] [] ∅))
      ++ group_views (returned (get_impersonation_rules a s))
  ∧ returned (get_impersonation_rules a
                (final (add_impersonation_rule
                          (Wrapper (DSSGroupImpersonationRule raw)) is_user_rule s)))
    = returned (get_impersonation_rules a s)
      ++ returned (get_impersonation_rules a (mkSettings [] [raw] ∅)).
Proof.
  rewrite !returned_get, user_views_app, group_views_app.
  unfold final. simpl. unfold list_append.
  rewrite user_matches_append, group_matches_append.
  rewrite user_matches_set_groupRules, group_matches_set_userRules.
  assert (group_matches a (mkSettings [raw] [] ∅) = []) as ->.
  { unfold group_matches, group_base. simpl. by case_decide. }
  assert (user_matches a (mkSettings [] [raw] ∅) = []) as ->.
  { unfold user_matches, user_base. simpl. by case_decide. }
  simpl. by rewrite !map_app, !app_nil_r, <- !app_assoc.
Qed.

Lemma filter_nil_not (P : dict → Prop) `{!∀ m, Decision (P m)} (l : list dict) :
  filter P l = [] → filter (λ m, ¬ P m) l = l.
Proof.
  intros Hnil. apply filter_all. intros m Hm HP.
  by apply (filter_nil_not_elem_of P l m).
Qed.

Lemma returned_nil a s :
  returned (get_impersonation_rules a s) = [] →
  user_matches a s = [] ∧ group_matches a s = [].
Proof.
  rewrite returned_get. intros [Hu Hg]%app_eq_nil.
  split; [by destruct (user_matches a s)|by destruct (group_matches a s)].
Qed.

Lemma remove_keeps_all a s :
  returned (get_impersonation_rules a s) = [] →
  (if decide (is_user a = JNone ∨ is_user a = JTrue)
   then filter (λ m, ¬ user_pred a m) (userRules s) else userRules s)
    = userRules s
  ∧ (if decide (is_user a = JNone ∨ is_user a = JFalse)
     then filter (λ m, ¬ group_pred a m) (groupRules s) else groupRules s)
    = groupRules s.
Proof.
  intros [Hu Hg]%returned_nil.
  unfold user_matches, user_base in Hu. unfold group_matches, group_base in Hg.
  split.
  - destruct (decide (is_user a = JNone ∨ is_user a = JTrue)); [|done].
    by apply filter_nil_not.
  - destruct (decide (is_user a = JNone ∨ is_user a = JFalse)); [|done].
    by apply filter_nil_not.
Qed.

(** X13: when the query returns nothing on the document and returns
    the new rule on a document that holds it alone, adding the rule and
    then removing with the arguments of the query gives the document
    back. *)
Theorem add_then_remove_impersonation_rule a s (raw : dict) (is_user_rule : json) :
  returned (get_impersonation_rules a s) = [] →
  (DSSUserImpersonationRule raw
     ∈ returned (get_impersonation_rules a (mkSettings [raw] [] ∅)) →
   (add_impersonation_rule (Wrapper (DSSUserImpersonationRule raw)) is_user_rule;;
    remove_impersonation_rules a) s = (Ok tt, s))
  ∧ (DSSGroupImpersonationRule raw
       ∈ returned (get_impersonation_rules a (mkSettings [] [raw] ∅)) →
     (add_impersonation_rule (Wrapper (DSSGroupImpersonationRule raw)) is_user_rule;;
      remove_impersonation_rules a) s = (Ok tt, s)).
Proof.
  intros Hnil. destruct (remove_keeps_all a s Hnil) as [Hu Hg].
  destruct s as [us gs rest]. simpl in Hu, Hg.
  split.
  - intros (Hi & _ & HP)%elem_of_returned_user.
    unfold mbind, M_bind. simpl.
    rewrite remove_impersonation_rules_filter. simpl. unfold list_append.
    rewrite Hg. rewrite decide_True by done.
    rewrite decide_True in Hu by done.
    rewrite filter_app, Hu, filter_cons_False by tauto.
    by rewrite filter_nil, app_nil_r.
  - intros (Hi & _ & HP)%elem_of_returned_group.
    unfold mbind, M_bind. simpl.
    rewrite remove_impersonation_rules_filter. simpl. unfold list_append.
    rewrite Hu. rewrite decide_True by done.
    rewrite decide_True in Hg by done.
    rewrite filter_app, Hg, filter_cons_False by tauto.
    by rewrite filter_nil, app_nil_r.
Qed.

Lemma add_then_remove_impersonation_rule_witness :
  returned (get_impersonation_rules (by_project_key "P1")
              (mkSettings [rule_global_identity] [] ∅)) = []
  ∧ DSSUserImpersonationRule rule_alice_P1
      ∈ returned (get_impersonation_rules (by_project_key "P1")
                    (mkSettings [rule_alice_P1] [] ∅))
  ∧ (add_impersonation_rule (Wrapper (DSSUserImpersonationRule rule_alice_P1))
       JTrue;;
     remove_impersonation_rules (by_project_key "P1"))
      (mkSettings [rule_global_identity] [] ∅)
    = (Ok tt, mkSettings [rule_global_identity] [] ∅).
Proof.
  assert (returned (get_impersonation_rules (by_project_key "P1")
                      (mkSettings [rule_global_identity] [] ∅)) = []) as Hnil
    by reflexivity.
  assert (DSSUserImpersonationRule rule_alice_P1
            ∈ returned (get_impersonation_rules (by_project_key "P1")
                          (mkSettings [rule_alice_P1] [] ∅))) as Hin.
  { apply (bool_decide_unpack _). vm_compute. exact I. }
  split; [exact Hnil|]. split; [exact Hin|].
  exact (proj1 (add_then_remove_impersonation_rule (by_project_key "P1")
                  (mkSettings [rule_global_identity] [] ∅)
                  rule_alice_P1 JTrue Hnil) Hin).
Defined.

(** ** More on the builders *)

(** X14: whatever record a builder starts from and whatever calls were
    chained before, after a last [user_regexp(p, t, h)], resp.
    [group_regexp(p, t, h)], the record has [type = 'REGEXP_RULE'],
    [ruleFrom = p], [targetUnix = t] and [targetHadoop = h], or [None]
    when [h] is left out. *)
Theorem regexp_is_terminal (init : option dict) (p t : json)
    (h : option json) (ucs : list user_call) (gcs : list group_call) :
  let ur := user_chain (ucs ++ [User_regexp p t h]) (user_rule_init init) in
  let gr := group_chain (gcs ++ [Group_regexp p t h]) (group_rule_init init) in
  (ur !! "type" = Some (JStr "REGEXP_RULE")
   ∧ ur !! "ruleFrom" = Some p
   ∧ ur !! "targetUnix" = Some t
   ∧ ur !! "targetHadoop" = Some (match h with Some h => h | None => JNone end))
  ∧ (gr !! "type" = Some (JStr "REGEXP_RULE")
     ∧ gr !! "ruleFrom" = Some p
     ∧ gr !! "targetUnix" = Some t
     ∧ gr !! "targetHadoop" = Some (match h with Some h => h | None => JNone end)).
Proof.
  intros ur gr. subst ur gr.
  rewrite user_chain_snoc, group_chain_snoc. simpl.
  unfold user_regexp, group_regexp.
  destruct h; simpl; repeat split; by simplify_map_eq.
Qed.

(** X15: [scope_project(pk)] sets [scope] to ['PROJECT'] and
    [projectKey] to [pk] and nothing else; [scope_global()] sets
    [scope] to ['GLOBAL'] and nothing else, so the [projectKey] of an
    earlier [scope_project] stays in the record. *)
Theorem scope_calls_frame (raw : dict) (pk : json) :
  (scope_project pk raw !! "scope" = Some (JStr "PROJECT")
   ∧ scope_project pk raw !! "projectKey" = Some pk
   ∧ ∀ k, k ≠ "scope" → k ≠ "projectKey" → scope_project pk raw !! k = raw !! k)
  ∧ (scope_global raw !! "scope" = Some (JStr "GLOBAL")
     ∧ ∀ k, k ≠ "scope" → scope_global raw !! k = raw !! k).
Proof.
  unfold scope_project, scope_global.
  repeat split; intros; by simplify_map_eq.
Qed.

Lemma scope_calls_frame_witness :
  "projectKey" ≠ "scope"
  ∧ scope_global (scope_project (JStr "P1") (user_rule_init None)) !! "projectKey"
    = scope_project (JStr "P1") (user_rule_init None) !! "projectKey".
Proof.
  assert ("projectKey" ≠ "scope") as Hne by discriminate.
  split; [exact Hne|].
  exact (proj2 (proj2 (scope_calls_frame
    (scope_project (JStr "P1") (user_rule_init None)) JNone)) "projectKey" Hne).
Defined.

(** X16: a rule that was given a project scope and then the global
    scope again is, once added, still returned by the query for its
    former project key. *)
Theorem global_rule_found_by_former_project_key s (raw : dict) (pk flag : json) :
  pk ≠ JNone →
  DSSUserImpersonationRule (scope_global (scope_project pk raw))
    ∈ returned
        (get_impersonation_rules (with_project_key pk no_filters)
           (final (add_impersonation_rule
                     (Wrapper (DSSUserImpersonationRule
                                 (scope_global (scope_project pk raw))))
                     flag s))).
Proof.
  intros Hpk. apply elem_of_returned_user. split; [by left|]. split.
  - unfold final. simpl. unfold list_append. apply elem_of_app. right. by left.
  - repeat split; try (by left). right. simpl.
    unfold dict_get, scope_global, scope_project. by simplify_map_eq.
Qed.

Lemma global_rule_found_by_former_project_key_witness :
  JStr "P1" ≠ JNone
  ∧ DSSUserImpersonationRule
      (scope_global (scope_project (JStr "P1") (user_rule_init None)))
    ∈ returned
        (get_impersonation_rules (with_project_key (JStr "P1") no_filters)
           (final (add_impersonation_rule
                     (Wrapper (DSSUserImpersonationRule
                        (scope_global
                           (scope_project (JStr "P1") (user_rule_init None)))))
                     JTrue (mkSettings [] [] ∅)))).
Proof.
  assert (JStr "P1" ≠ JNone) as Hpk by discriminate.
  split; [exact Hpk|].
  exact (global_rule_found_by_former_project_key (mkSettings [] [] ∅)
           (user_rule_init None) (JStr "P1") JTrue Hpk).
Defined.

Lemma dom_insert_within (K : gset string) (k : string) (v : json) (raw : dict) :
  k ∈ K → dom raw ⊆ K → dom (<[k := v]> raw) ⊆ K.
Proof.
  intros Hk Hdom. rewrite dom_insert_L.
  apply union_subseteq. split; [by apply singleton_subseteq_l|done].
Qed.

Lemma user_call_run_ok (c : user_call) (raw : dict) :
  user_record_ok raw → user_record_ok (user_call_run c raw).
Proof.
  intros (Hdom & (ty & Hty & Htyv) & (sc & Hsc & Hscv)).
  unfold user_record_ok.
  destruct c; simpl;
    unfold scope_global, scope_project, user_identity, user_single, user_regexp;
    simpl;
    (split; [repeat (apply dom_insert_within; [key_in_set|]); exact Hdom|]);
    split; simplify_map_eq; eexists; (split; [done|]);
    unfold rule_type_value, scope_value; auto.
Qed.

Lemma group_call_run_ok (c : group_call) (raw : dict) :
  group_record_ok raw → group_record_ok (group_call_run c raw).
Proof.
  intros (Hdom & (ty & Hty & Htyv)).
  unfold group_record_ok.
  destruct c; simpl;
    unfold group_identity, group_single, group_regexp;
    simpl;
    (split; [repeat (apply dom_insert_within; [key_in_set|]); exact Hdom|]);
    simplify_map_eq; eexists; (split; [done|]);
    unfold rule_type_value; auto.
Qed.

(** X17: a builder made without a record yields, after any chain of
    calls, a record whose keys are fields of its kind of rule, whose
    [type] is one of the three rule types and, for a user rule, whose
    [scope] is ['GLOBAL'] or ['PROJECT']; a group rule never gets a
    [scope] or a [projectKey]. *)
Theorem fresh_builder_records (ucs : list user_call) (gcs : list group_call) :
  user_record_ok (user_chain ucs (user_rule_init None))
  ∧ group_record_ok (group_chain gcs (group_rule_init None))
  ∧ group_chain gcs (group_rule_init None) !! "scope" = None
  ∧ group_chain gcs (group_rule_init None) !! "projectKey" = None.
Proof.
  assert (user_record_ok (user_chain ucs (user_rule_init None))) as Hu.
  { induction ucs as [|c ucs IH] using rev_ind.
    - split; [|split].
      + simpl. repeat (apply dom_insert_within; [key_in_set|]).
        by rewrite dom_empty_L.
      + exists (JStr "IDENTITY"). split; [done|by left].
      + exists (JStr "GLOBAL"). split; [done|by left].
    - rewrite user_chain_snoc. by apply user_call_run_ok. }
  assert (group_record_ok (group_chain gcs (group_rule_init None))) as Hg.
  { induction gcs as [|c gcs IH] using rev_ind.
    - split.
      + simpl. repeat (apply dom_insert_within; [key_in_set|]).
        by rewrite dom_empty_L.
      + exists (JStr "IDENTITY"). split; [done|by left].
    - rewrite group_chain_snoc. by apply group_call_run_ok. }
  split; [exact Hu|]. split; [exact Hg|].
  destruct Hg as [Hdom _]. unfold group_rule_keys in Hdom.
  split; apply not_elem_of_dom; intros Hk; apply Hdom in Hk;
    repeat (apply elem_of_union in Hk as [Hk|Hk]);
    apply elem_of_singleton in Hk; discriminate Hk.
Qed.

(** X18: a scope call and a type call on a user-rule builder give the
    same record in either order. *)
Theorem scope_and_type_calls_commute (c1 c2 : user_call) (raw : dict) :
  is_scope_call c1 = true → is_type_call c2 = true →
  user_chain [c1; c2] raw = user_chain [c2; c1] raw.
Proof.
  intros H1 H2. destruct c1; try discriminate H1;
    destruct c2; try discriminate H2; simpl;
    unfold scope_global, scope_project, user_identity, user_single, user_regexp;
    simpl; apply map_eq; intros k;
    rewrite !lookup_insert; repeat case_decide; congruence.
Qed.

Lemma scope_and_type_calls_commute_witness :
  is_scope_call (Scope_project (JStr "P1")) = true
  ∧ is_type_call (User_single (JStr "alice") (JStr "u_alice") None) = true
  ∧ user_chain [Scope_project (JStr "P1");
                User_single (JStr "alice") (JStr "u_alice") None]
      (user_rule_init None)
    = user_chain [User_single (JStr "alice") (JStr "u_alice") None;
                  Scope_project (JStr "P1")]
        (user_rule_init None).
Proof.
  split; [reflexivity|]. split; [reflexivity|].
  exact (scope_and_type_calls_commute (Scope_project (JStr "P1"))
           (User_single (JStr "alice") (JStr "u_alice") None)
           (user_rule_init None) eq_refl eq_refl).
Defined.

(** ** The other operations that check the response *)

(** X19: [set_jupyter_support] and [update_packages] raise
    ['Env update returned no data'] when the response is absent; raise
    ['Env update failed'] with the ['messages'] entry of the response's
    messages, or with an empty dict when there is no such entry, when
    their ['error'] entry is true; return the response as it is when
    it is an object whose ['messages'] entry is absent or an object
    without a true ['error'] entry; and raise an [AttributeError] on
    every other response, that is, when the response is not an object
    or its ['messages'] entry is there and is not an object. *)
Theorem code_env_updates_check_the_response :
  (set_jupyter_support JNone
     = Raise (Exception "Env update returned no data" None)
   ∧ update_packages JNone
     = Raise (Exception "Env update returned no data" None))
  ∧ (∀ (d msgs : dict) (v : json),
       d !! "messages" = Some (JDict msgs) → msgs !! "error" = Some v →
       truthy v = true →
       set_jupyter_support (JDict d)
         = Raise (Exception "Env update failed : %s"
                    (Some (default (JDict ∅) (msgs !! "messages"))))
       ∧ update_packages (JDict d)
         = Raise (Exception "Env update failed : %s"
                    (Some (default (JDict ∅) (msgs !! "messages")))))
  ∧ (∀ resp, messages_readable resp → ¬ error_flagged resp →
       set_jupyter_support resp = Ok resp
       ∧ update_packages resp = Ok resp)
  ∧ (∀ resp, resp ≠ JNone → ¬ messages_readable resp →
       set_jupyter_support resp = Raise (AttributeError "get")
       ∧ update_packages resp = Raise (AttributeError "get")).
Proof.
  change set_jupyter_support
    with (check_response "Env update returned no data" "Env update failed : %s").
  change update_packages
    with (check_response "Env update returned no data" "Env update failed : %s").
  split; [by rewrite check_response_None|].
  split; [intros; by rewrite (check_response_flagged _ _ d msgs v)|].
  split; [intros; by rewrite check_response_Ok|].
  intros. by rewrite check_response_AttributeError.
Qed.

Lemma code_env_updates_check_the_response_witness :
  response_null_messages ≠ JNone
  ∧ ¬ messages_readable response_null_messages
  ∧ set_jupyter_support response_null_messages = Raise (AttributeError "get").
Proof.
  assert (response_null_messages ≠ JNone) as Hn by discriminate.
  assert (¬ messages_readable response_null_messages) as Hr.
  { intros (d & [= <-] & [Hd|(msgs & Hd)]); vm_compute in Hd; discriminate Hd. }
  split; [exact Hn|]. split; [exact Hr|].
  exact (proj1 (proj2 (proj2 (proj2 code_env_updates_check_the_response))
                  response_null_messages Hn Hr)).
Defined.

(** X20: [DSSCluster.start] and [DSSCluster.stop] do the same with
    ['Cluster operation failed']; for an absent response they raise the
    ['Env update returned no data'] of the code env updates. *)
Theorem cluster_actions_check_the_response :
  (start JNone = Raise (Exception "Env update returned no data" None)
   ∧ stop JNone = Raise (Exception "Env update returned no data" None))
  ∧ (∀ (d msgs : dict) (v : json),
       d !! "messages" = Some (JDict msgs) → msgs !! "error" = Some v →
       truthy v = true →
       start (JDict d)
         = Raise (Exception "Cluster operation failed : %s"
                    (Some (default (JDict ∅) (msgs !! "messages"))))
       ∧ stop (JDict d)
         = Raise (Exception "Cluster operation failed : %s"
                    (Some (default (JDict ∅) (msgs !! "messages")))))
  ∧ (∀ resp, messages_readable resp → ¬ error_flagged resp →
       start resp = Ok resp ∧ stop resp = Ok resp)
  ∧ (∀ resp, resp ≠ JNone → ¬ messages_readable resp →
       start resp = Raise (AttributeError "get")
       ∧ stop resp = Raise (AttributeError "get")).
Proof.
  change start
    with (check_response "Env update returned no data"
            "Cluster operation failed : %s").
  change stop
    with (check_response "Env update returned no data"
            "Cluster operation failed : %s").
  split; [by rewrite check_response_None|].
  split; [intros; by rewrite (check_response_flagged _ _ d msgs v)|].
  split; [intros; by rewrite check_response_Ok|].
  intros. by rewrite check_response_AttributeError.
Qed.

Lemma cluster_actions_check_the_response_witness :
  (<["messages" := JDict (<["error" := JTrue]> ∅)]> ∅ : dict) !! "messages"
    = Some (JDict (<["error" := JTrue]> ∅))
  ∧ (<["error" := JTrue]> ∅ : dict) !! "error" = Some JTrue
  ∧ truthy JTrue = true
  ∧ start response_failed
    = Raise (Exception "Cluster operation failed : %s" (Some (JDict ∅))).
Proof.
  assert ((<["messages" := JDict (<["error" := JTrue]> ∅)]> ∅ : dict)
            !! "messages" = Some (JDict (<["error" := JTrue]> ∅))) as Hm
    by reflexivity.
  assert ((<["error" := JTrue]> ∅ : dict) !! "error" = Some JTrue) as Hv
    by reflexivity.
  split; [exact Hm|]. split; [exact Hv|]. split; [reflexivity|].
  exact (proj1 (proj1 (proj2 cluster_actions_check_the_response)
                  (<["messages" := JDict (<["error" := JTrue]> ∅)]> ∅)
                  (<["error" := JTrue]> ∅) JTrue Hm Hv eq_refl)).
Defined.

(** X21: the five operations that check the response accept the same
    responses: each returns exactly when [delete] does, that is, when
    the response is an object whose ['messages'] entry is absent or an
    object without a true ['error'] entry, and what it returns is the
    response itself; and each raises an [AttributeError] exactly when
    [delete] does. *)
Theorem checked_operations_agree (resp r : json) :
  (delete resp = Ok r
   ↔ r = resp ∧ messages_readable resp ∧ ¬ error_flagged resp)
  ∧ (set_jupyter_support resp = Ok r ↔ delete resp = Ok r)
  ∧ (update_packages resp = Ok r ↔ delete resp = Ok r)
  ∧ (start resp = Ok r ↔ delete resp = Ok r)
  ∧ (stop resp = Ok r ↔ delete resp = Ok r)
  ∧ (∀ attr,
       (set_jupyter_support resp = Raise (AttributeError attr)
        ↔ delete resp = Raise (AttributeError attr))
       ∧ (update_packages resp = Raise (AttributeError attr)
          ↔ delete resp = Raise (AttributeError attr))
       ∧ (start resp = Raise (AttributeError attr)
          ↔ delete resp = Raise (AttributeError attr))
       ∧ (stop resp = Raise (AttributeError attr)
          ↔ delete resp = Raise (AttributeError attr))).
Proof.
  change delete
    with (check_response "Env deletion returned no data"
            "Env deletion failed : %s").
  change set_jupyter_support
    with (check_response "Env update returned no data" "Env update failed : %s").
  change update_packages
    with (check_response "Env update returned no data" "Env update failed : %s").
  change start
    with (check_response "Env update returned no data"
            "Cluster operation failed : %s").
  change stop
    with (check_response "Env update returned no data"
            "Cluster operation failed : %s").
  split; [apply check_response_Ok_iff|].
  rewrite !check_response_Ok_iff. repeat (split; [done|]).
  intros attr.
  destruct (response_cases resp) as [->|[Hf|[[Hr Hf]|[Hn Hr]]]].
  - by rewrite !check_response_None.
  - destruct Hf as (d & msgs & v & -> & Hm & Hv & Ht).
    by rewrite !(check_response_flagged _ _ d msgs v).
  - by rewrite !check_response_Ok.
  - by rewrite !check_response_AttributeError.
Qed.
